(** * A shallow embedding of the Open LianLi RGB driver (main.py)

    The program finds a USB device by vendor and product id, builds a raw
    packet from a hex template and a colour code, writes it to an endpoint
    with one reconnect-and-retry, and saves the working configuration.

    Conventions of the embedding:
    - a Python [str] is a [string] of 8-bit characters.  Code points above
      127 matter to this program only in that they are neither hexadecimal
      digits nor ASCII whitespace, and [str.lower] never maps one of them to
      a hexadecimal digit or to whitespace;
    - a Python [bytes] value is a [list Z] of numbers below 256;
    - a Python exception is a value of [exn]; a call that may raise returns
      [exn + A];
    - the USB bus, the console and the configuration file are explicit
      state. *)

From Stdlib Require Import ZArith NArith Ascii String List Bool Lia.
From Stdlib Require HexString.
From stdpp Require Import base option list strings gmap.

Local Open Scope Z_scope.

(** ** Python exceptions *)

Inductive exn : Type :=
| ValueError (msg : string)
| TypeError (msg : string)
| AttributeError (msg : string)
| USBError (msg : string)
| OtherException (msg : string).

(** ** Characters and strings *)

Definition ord (c : ascii) : Z := Z.of_N (N_of_ascii c).
Definition chr (z : Z) : ascii := ascii_of_N (Z.to_N z).

(** [Py_ISSPACE]: tab, line feed, vertical tab, form feed, carriage return
    and space. *)
Definition Py_ISSPACE (c : ascii) : bool :=
  ((9 <=? ord c) && (ord c <=? 13)) || (ord c =? 32).

(** [_PyLong_DigitValue]: the value of a character as a digit in bases up to
    36, and 37 for every other character. *)
Definition PyLong_DigitValue (c : ascii) : Z :=
  let n := ord c in
  if (48 <=? n) && (n <=? 57) then n - 48
  else if (97 <=? n) && (n <=? 122) then n - 87
  else if (65 <=? n) && (n <=? 90) then n - 55
  else 37.

Definition is_hex_digit (c : ascii) : bool := PyLong_DigitValue c <? 16.

(** [str.lower] on one character. *)
Definition lower_char (c : ascii) : ascii :=
  if (65 <=? ord c) && (ord c <=? 90) then chr (ord c + 32) else c.

Fixpoint lower (s : string) : string :=
  match s with
  | EmptyString => EmptyString
  | String c s' => String (lower_char c) (lower s')
  end.

Fixpoint startswith (s prefix : string) : bool :=
  match prefix, s with
  | EmptyString, _ => true
  | String _ _, EmptyString => false
  | String p prefix', String c s' => Ascii.eqb c p && startswith s' prefix'
  end.

(** [s.replace(old, new)] for a non-empty [old]: a left-to-right scan that
    replaces each occurrence it meets and resumes after it.  [skip] counts
    the characters of a matched occurrence that are still to be dropped. *)
Fixpoint replace_from (skip : nat) (old new s : string) : string :=
  match s with
  | EmptyString => EmptyString
  | String c s' =>
      match skip with
      | S k => replace_from k old new s'
      | O =>
          if startswith s old
          then new +:+ replace_from (Nat.pred (String.length old)) old new s'
          else String c (replace_from O old new s')
      end
  end.

Definition replace (s old new : string) : string := replace_from O old new s.

(** ** [bytes.fromhex]

    CPython's loop: skip a run of ASCII whitespace, then read two
    hexadecimal digits and emit one byte.  [None] stands for the
    [ValueError] it raises. *)
Fixpoint fromhex (s : string) : option (list Z) :=
  match s with
  | EmptyString => Some []
  | String c s' =>
      if Py_ISSPACE c then fromhex s'
      else
        let top := PyLong_DigitValue c in
        if 16 <=? top then None
        else
          match s' with
          | EmptyString => None
          | String d s'' =>
              let bot := PyLong_DigitValue d in
              if 16 <=? bot then None
              else
                match fromhex s'' with
                | Some bs => Some (Z.shiftl top 4 + bot :: bs)
                | None => None
                end
          end
  end.

(** ** Constants of the program *)

Definition DEFAULT_PACKET_HEADER : string := "018500000014030400".
Definition DEFAULT_PACKET_FOOTER : string :=
  "00000000000000000000000000180000000000000000000000000000000000000000000000000000000000000000000000000000".

(** ** Payload construction: the first half of [send_color_packet] *)

Definition normalize_color (hex_color : string) : string :=
  lower (replace hex_color "#" "").

Definition full_payload (header hex_color footer : string) : string :=
  (header +:+ normalize_color hex_color) +:+ footer.

Definition InvalidPayload : exn :=
  ValueError "Invalid Hex Data. Check config header/footer or color code.".

Definition buildPayload (header hex_color footer : string) : exn + list Z :=
  match fromhex (full_payload header hex_color footer) with
  | Some packet_data => inr packet_data
  | None => inl InvalidPayload
  end.

(** ** Python values that reach the program from the command line and from
    the configuration file

    [PContainer] is a JSON array or object, of which the program observes
    only whether it is empty.  JSON numbers with a fraction or an exponent
    are outside the embedding. *)

Inductive pyval : Type :=
| PNone
| PBool (b : bool)
| PInt (z : Z)
| PStr (s : string)
| PContainer (nonempty : bool).

(** Truth value of a Python value, as [if v] and [not v] take it. *)
Definition truthy (v : pyval) : bool :=
  match v with
  | PNone => false
  | PBool b => b
  | PInt z => negb (z =? 0)
  | PStr s => match s with EmptyString => false | String _ _ => true end
  | PContainer nonempty => nonempty
  end.

(** [v == n] for an integer [n]; [True] and [False] are the integers 1 and 0. *)
Definition py_eq_int (v : pyval) (n : Z) : bool :=
  match v with
  | PInt z => z =? n
  | PBool b => (if b then 1 else 0) =? n
  | _ => false
  end.

(** [hex(n)] *)
Definition hex (n : Z) : string := HexString.of_Z n.

(** [hex(v)]: a [TypeError] unless [v] is an integer. *)
Definition py_hex (v : pyval) : exn + string :=
  match v with
  | PInt z => inr (hex z)
  | PBool b => inr (hex (if b then 1 else 0))
  | _ => inl (TypeError "object cannot be interpreted as an integer")
  end.

(** ** The USB bus *)

Record Device : Type := mkDevice {
  address : Z;
  idVendor : Z;
  idProduct : Z;
  iProduct : Z
}.

(** What pyusb and the Python runtime give the program.  [W] is the state of
    the bus; every transfer may change it (a device may be unplugged by the
    time of the next call). *)
Class Host (W : Type) : Type := {
  enumerate_devices : W -> list Device;
  usb_set_configuration : Device -> W -> (exn + unit) * W;
  usb_write : Device -> pyval -> list Z -> W -> (exn + unit) * W;
  usb_get_string : Device -> Z -> W -> (exn + string) * W;
  (** [int(s, 16)]; [None] stands for its [ValueError] *)
  int16 : string -> option Z;
  CONFIG_FILE : string
}.

(** The transfers the program asks for, in the order it asks for them. *)
Inductive usb_event : Type :=
| EvFind (vid pid : pyval)
| EvFindAll
| EvSetConfiguration (d : Device)
| EvWrite (d : Device) (endpoint : pyval) (data : list Z)
| EvGetString (d : Device) (index : Z).

(** A printed line.  Where the text embeds [str(x)] of a Python value or of
    an exception, the line is kept as its format and arguments. *)
Inductive out_line : Type :=
| Text (s : string)
| Connecting (vid pid : pyval)
| ErrorLine (e : exn)
| FailedToSend (e : exn).

(** What [json.load] returns. *)
Inductive config_value : Type :=
| CDict (d : gmap string pyval)
| COther.

(** The configuration file as [load_config] meets it: no file at the
    path; a file on which [json.load] raises [json.JSONDecodeError]; a file
    that parses to [v]; or a file on which [open] or [json.load] raises
    another exception [x] ([OSError], [UnicodeDecodeError],
    [RecursionError], the [ValueError] of an over-long integer), which
    [load_config] does not catch. *)
Inductive file_content : Type :=
| NoFile
| Unparsable
| Parsed (v : config_value)
| Unreadable (x : exn).

Record Env (W : Type) : Type := mkEnv {
  world : W;
  trace : list usb_event;
  stdout : list out_line;
  config_file : file_content
}.
Arguments mkEnv {W}.
Arguments world {W}.
Arguments trace {W}.
Arguments stdout {W}.
Arguments config_file {W}.

(** ** State and exceptions *)

Definition M (S A : Type) : Type := S -> (exn + A) * S.

Definition ret {S A} (a : A) : M S A := fun s => (inr a, s).
Definition raise {S A} (x : exn) : M S A := fun s => (inl x, s).
Definition bind {S A B} (m : M S A) (k : A -> M S B) : M S B :=
  fun s =>
    match m s with
    | (inr a, s') => k a s'
    | (inl x, s') => (inl x, s')
    end.

Declare Scope py_scope.
Delimit Scope py_scope with py.
Notation "x <- m ;; k" := (bind m (fun x => k))
  (at level 100, m at next level, right associativity) : py_scope.
Notation "m ;; k" := (bind m (fun _ => k))
  (at level 100, right associativity) : py_scope.
Local Open Scope py_scope.

Definition lift_result {S A} (r : exn + A) : M S A :=
  match r with
  | inr a => ret a
  | inl x => raise x
  end.

(** [try: body except <catches> as e: handler e] *)
Definition try_except {S A} (body : M S A) (catches : exn -> bool)
    (handler : exn -> M S A) : M S A :=
  fun s =>
    match body s with
    | (inl x, s') => if catches x then handler x s' else (inl x, s')
    | (inr a, s') => (inr a, s')
    end.

Definition is_USBError (x : exn) : bool :=
  match x with USBError _ => true | _ => false end.

(** Every exception of the embedding derives from [Exception]. *)
Definition is_Exception (x : exn) : bool := true.

(** ** The program *)

Section Program.
Context {W : Type} {host : Host W}.

Definition set_world (w : W) (e : Env W) : Env W :=
  mkEnv w (trace e) (stdout e) (config_file e).
Definition log (ev : usb_event) (e : Env W) : Env W :=
  mkEnv (world e) (trace e ++ [ev]) (stdout e) (config_file e).
Definition set_config_file (c : file_content) (e : Env W) : Env W :=
  mkEnv (world e) (trace e) (stdout e) c.

Definition print (l : out_line) : M (Env W) unit :=
  fun e => (inr tt, mkEnv (world e) (trace e) (stdout e ++ [l]) (config_file e)).

(** *** pyusb calls, each logged in the trace *)

Definition matches (vid pid : pyval) (d : Device) : bool :=
  py_eq_int vid (idVendor d) && py_eq_int pid (idProduct d).

(** [usb.core.find(idVendor=vid, idProduct=pid)]: the first enumerated
    device with both attributes equal, or [None]. *)
Definition usb_core_find (vid pid : pyval) : M (Env W) (option Device) :=
  fun e => (inr (List.find (matches vid pid) (enumerate_devices (world e))),
            log (EvFind vid pid) e).

(** [usb.core.find(find_all=True)] *)
Definition usb_core_find_all : M (Env W) (list Device) :=
  fun e => (inr (enumerate_devices (world e)), log EvFindAll e).

Definition set_configuration (d : Device) : M (Env W) unit :=
  fun e =>
    let '(r, w) := usb_set_configuration d (world e) in
    (r, set_world w (log (EvSetConfiguration d) e)).

Definition write (d : Device) (endpoint : pyval) (data : list Z)
    : M (Env W) unit :=
  fun e =>
    let '(r, w) := usb_write d endpoint data (world e) in
    (r, set_world w (log (EvWrite d endpoint data) e)).

(** [usb.util.get_string(dev, index)] *)
Definition get_string (d : Device) (index : Z) : M (Env W) string :=
  fun e =>
    let '(r, w) := usb_get_string d index (world e) in
    (r, set_world w (log (EvGetString d index) e)).

(** The state after the write of [data] to [d]. *)
Definition after_write (d : Device) (endpoint : pyval) (data : list Z)
    (e : Env W) : Env W :=
  set_world (snd (usb_write d endpoint data (world e)))
    (log (EvWrite d endpoint data) e).

(** *** Configuration file *)

(** [config.get(key, default)] *)
Definition dict_get {S} (config : config_value) (key : string)
    (default : pyval) : M S pyval :=
  match config with
  | CDict d => ret (from_option id default (d !! key))
  | COther => raise (AttributeError "object has no attribute 'get'")
  end.

Definition load_config : M (Env W) config_value :=
  fun e =>
    match config_file e with
    | Parsed v => ret v e
    | Unparsable =>
        (print (Text "Warning: Config file is corrupted. Starting fresh.");;
         ret (CDict ∅)) e
    | NoFile => ret (CDict ∅) e
    | Unreadable x => raise x e
    end.

(** The dictionary that [save_config] dumps. *)
Definition config_data (vid pid endpoint header footer : pyval)
    : gmap string pyval :=
  <["packet_footer" := footer]>
    (<["packet_header" := header]>
      (<["endpoint" := endpoint]>
        (<["pid" := pid]>
          (<["vid" := vid]> ∅)))).

Definition save_config (vid pid endpoint header footer : pyval)
    : M (Env W) unit :=
  (fun e => (inr tt,
     set_config_file
       (Parsed (CDict (config_data vid pid endpoint header footer))) e));;
  print (Text ("Configuration saved to " +:+ CONFIG_FILE)).

(** *** class RGBDevice *)

Record RGBDevice : Type := mkRGBDevice {
  self_vid : pyval;
  self_pid : pyval;
  self_endpoint : pyval;
  self_dev : option Device
}.

Definition set_dev (d : option Device) (self : RGBDevice) : RGBDevice :=
  mkRGBDevice (self_vid self) (self_pid self) (self_endpoint self) d.

(** A method runs on the object and the environment. *)
Definition Method (A : Type) : Type := M (RGBDevice * Env W) A.

Definition in_env {A} (m : M (Env W) A) : Method A :=
  fun '(self, e) => let '(r, e') := m e in (r, (self, e')).
Definition get_self : Method RGBDevice := fun '(self, e) => (inr self, (self, e)).
Definition assign_dev (d : option Device) : Method unit :=
  fun '(self, e) => (inr tt, (set_dev d self, e)).

Definition DeviceNotFound_msg (hv hp : string) : string :=
  "Device VID:" +:+ hv +:+ " PID:" +:+ hp +:+
  " not found. Please check connection.".

Definition DeviceNotFound (vid pid : Z) : exn :=
  ValueError (DeviceNotFound_msg (hex vid) (hex pid)).

Definition connect : Method unit :=
  self <- get_self;;
  found <- in_env (usb_core_find (self_vid self) (self_pid self));;
  assign_dev found;;
  match found with
  | None =>
      hv <- lift_result (py_hex (self_vid self));;
      hp <- lift_result (py_hex (self_pid self));;
      raise (ValueError (DeviceNotFound_msg hv hp))
  | Some d => in_env (set_configuration d)
  end.

(** [self.dev.write(self.endpoint, packet_data)] *)
Definition dev_write (packet_data : list Z) : Method unit :=
  self <- get_self;;
  match self_dev self with
  | Some d => in_env (write d (self_endpoint self) packet_data)
  | None => raise (AttributeError "'NoneType' object has no attribute 'write'")
  end.

(** [send_color_packet(self, hex_color, header, footer)].  The colour comes
    from the command line and is a string; header and footer come from the
    configuration file, and [header + hex_color + footer] raises a
    [TypeError] unless both are strings.  A [try] body that may [return]
    yields [Some v] when it returned [v] and [None] when control falls out
    of the statement. *)
Definition send_color_packet (hex_color : string) (header footer : pyval)
    : Method bool :=
  packet_data <-
    match header, footer with
    | PStr h, PStr f => lift_result (buildPayload h hex_color f)
    | _, _ => raise (TypeError "can only concatenate str to str")
    end;;
  returned <-
    try_except
      (self <- get_self;;
       match self_dev self with
       | Some _ => dev_write packet_data;; ret (Some true)
       | None => ret None
       end)
      is_USBError
      (fun _ =>
         try_except
           (connect;;
            dev_write packet_data;;
            ret (Some true))
           is_Exception
           (fun e => in_env (print (FailedToSend e));; ret None));;
  match returned with
  | Some v => ret v
  | None => ret false
  end.

(** [int(v, 16) if isinstance(v, str) else v] *)
Definition to_id (v : pyval) : exn + pyval :=
  match v with
  | PStr s =>
      match int16 s with
      | Some z => inr (PInt z)
      | None => inl (ValueError "invalid literal for int() with base 16")
      end
  | _ => inr v
  end.

(** [RGBDevice(vid, pid, endpoint)]: [__init__] and the object it leaves. *)
Definition RGBDevice_init (vid pid endpoint : pyval) : M (Env W) RGBDevice :=
  v <- lift_result (to_id vid);;
  p <- lift_result (to_id pid);;
  fun e =>
    match connect (mkRGBDevice v p endpoint None, e) with
    | (inr _, (self, e')) => (inr self, e')
    | (inl x, (_, e')) => (inl x, e')
    end.

(** [device.method(...)] called from a function. *)
Definition call {A} (device : RGBDevice) (m : Method A) : M (Env W) A :=
  fun e => let '(r, (_, e')) := m (device, e) in (r, e').

(** *** Command line tools *)

(** [s * n] *)
Fixpoint str_mul (s : string) (n : nat) : string :=
  match n with
  | O => EmptyString
  | S k => s +:+ str_mul s k
  end.

(** [f"{s:<width}"] *)
Definition ljust (s : string) (width : nat) : string :=
  s +:+ str_mul " " (width - String.length s).

(** [f"{vid:<10} {pid:<10} {product}"] *)
Definition format_row (vid pid product : string) : string :=
  ljust vid 10 +:+ " " +:+ ljust pid 10 +:+ " " +:+ product.

(** One turn of the loop of [scan_devices]: the [try] with its bare
    [except: pass]. *)
Definition scan_device (dev : Device) (count : Z) : M (Env W) Z :=
  try_except
    (let vid := hex (idVendor dev) in
     let pid := hex (idProduct dev) in
     product <-
       (if negb (iProduct dev =? 0) then get_string dev (iProduct dev)
        else ret "Unknown");;
     print (Text (format_row vid pid product));;
     ret (count + 1))
    (fun _ => true)
    (fun _ => ret count).

Fixpoint scan_loop (devices : list Device) (count : Z) : M (Env W) Z :=
  match devices with
  | [] => ret count
  | dev :: rest => count' <- scan_device dev count;; scan_loop rest count'
  end.

Definition scan_devices : M (Env W) unit :=
  print (Text (format_row "VID" "PID" "Product Name"));;
  print (Text (str_mul "-" 50));;
  devices <- usb_core_find_all;;
  count <- scan_loop devices 0;;
  if count =? 0
  then print (Text "No devices found or permission denied (Try running as Admin).")
  else ret tt.

Record Args : Type := mkArgs {
  arg_color : string;
  arg_vid : option string;
  arg_pid : option string
}.

(** An optional command line argument as a Python value. *)
Definition arg_value (a : option string) : pyval :=
  match a with
  | Some s => PStr s
  | None => PNone
  end.

(** Lines 124 and 125: locate the device, then build and send the packet. *)
Definition locate_and_send (vid pid endpoint : pyval) (color : string)
    (header footer : pyval) : M (Env W) bool :=
  device <- RGBDevice_init vid pid endpoint;;
  call device (send_color_packet color header footer).

(** Lines 122 to 134: the [try] statement of [manual_set_color]. *)
Definition send_and_save (vid pid endpoint : pyval) (color : string)
    (header footer : pyval) : M (Env W) unit :=
  try_except
    (success <- locate_and_send vid pid endpoint color header footer;;
     if success : bool
     then
       print (Text ("Successfully set color to #" +:+ color));;
       save_config vid pid endpoint header footer
     else print (Text "Device found, but failed to send packet."))
    is_Exception
    (fun e => print (ErrorLine e)).

Definition manual_set_color (args : Args) : M (Env W) unit :=
  config <- load_config;;
  vid <- (if truthy (arg_value (arg_vid args)) then ret (arg_value (arg_vid args))
          else dict_get config "vid" PNone);;
  pid <- (if truthy (arg_value (arg_pid args)) then ret (arg_value (arg_pid args))
          else dict_get config "pid" PNone);;
  if negb (truthy vid) || negb (truthy pid)
  then
    print (Text "Error: VID and PID are missing.");;
    print (Text "Usage first time: python main.py set <color> --vid <vid> --pid <pid>");;
    print (Text "Run 'python main.py scan' to find your device IDs.")
  else
    endpoint <- dict_get config "endpoint" (PInt 2);;
    header <- dict_get config "packet_header" (PStr DEFAULT_PACKET_HEADER);;
    footer <- dict_get config "packet_footer" (PStr DEFAULT_PACKET_FOOTER);;
    print (Connecting vid pid);;
    send_and_save vid pid endpoint (arg_color args) header footer.

End Program.

(** ** Notions the properties are stated with *)

(** [s] with every occurrence of the character [x] taken out. *)
Fixpoint without_char (x : ascii) (s : string) : string :=
  match s with
  | EmptyString => EmptyString
  | String c s' =>
      if Ascii.eqb c x then without_char x s' else String c (without_char x s')
  end.

(** Every character of [s] is a hexadecimal digit. *)
Fixpoint all_hex (s : string) : bool :=
  match s with
  | EmptyString => true
  | String c s' => is_hex_digit c && all_hex s'
  end.

(** Some character of [s] is ASCII whitespace. *)
Fixpoint has_space (s : string) : bool :=
  match s with
  | EmptyString => false
  | String c s' => Py_ISSPACE c || has_space s'
  end.

(** Odd length or a character that is not a hexadecimal digit. *)
Definition odd_or_non_hex (s : string) : bool :=
  Nat.odd (String.length s) || negb (all_hex s).

(** The strings [bytes.fromhex] accepts: pairs of hexadecimal digits, with
    ASCII whitespace allowed before, between and after the pairs. *)
Inductive HexText : string -> Prop :=
| HexText_nil : HexText EmptyString
| HexText_space c s :
    Py_ISSPACE c = true -> HexText s -> HexText (String c s)
| HexText_pair a b s :
    is_hex_digit a = true -> is_hex_digit b = true -> HexText s ->
    HexText (String a (String b s)).

(** Two characters, then two strings, that differ at most in the case of
    ASCII letters. *)
Definition same_char_ignoring_case (a b : ascii) : bool :=
  Ascii.eqb a b
  || ((65 <=? ord a) && (ord a <=? 90) && (ord b =? ord a + 32))
  || ((65 <=? ord b) && (ord b <=? 90) && (ord a =? ord b + 32)).

Fixpoint same_ignoring_case (s t : string) : bool :=
  match s, t with
  | EmptyString, EmptyString => true
  | String a s', String b t' =>
      same_char_ignoring_case a b && same_ignoring_case s' t'
  | _, _ => false
  end.

(** C1 read literally: the payload is refused exactly when the
    joined string has odd length or holds a character that is not a
    hexadecimal digit. *)
Definition refused_iff_odd_or_non_hex (header hex_color footer : string) : Prop :=
  buildPayload header hex_color footer = inl InvalidPayload <->
  odd_or_non_hex (full_payload header hex_color footer) = true.

(** C5 read literally: whatever the header and the footer, a hexadecimal
    colour [h] of even length gives a payload of half as many bytes as the
    joined string has characters. *)
Definition half_length_payload (header h footer : string) : Prop :=
  all_hex h = true -> Nat.even (String.length h) = true ->
  exists packet_data,
    buildPayload header h footer = inr packet_data /\
    List.length packet_data =
      Nat.div (String.length header + String.length h + String.length footer) 2.

(** The default template as the specification words it, with a footer of 107
    hexadecimal digits. *)
Definition default_template_107 : Prop :=
  DEFAULT_PACKET_HEADER = "018500000014030400" /\
  String.length DEFAULT_PACKET_FOOTER = 107%nat /\
  all_hex DEFAULT_PACKET_FOOTER = true.

Definition is_write (ev : usb_event) : bool :=
  match ev with EvWrite _ _ _ => true | _ => false end.

(** [m] leaves the component [proj] of the state as it finds it. *)
Definition keeps {S A B} (proj : S -> B) (m : M S A) : Prop :=
  forall s, proj (snd (m s)) = proj s.

(** The configuration file, seen from a method. *)
Definition file_of {W} (s : RGBDevice * Env W) : file_content :=
  config_file (snd s).

(** The row that [scan_devices] prints for [dev] with the product name
    [product]. *)
Definition row_of (dev : Device) (product : string) : out_line :=
  Text (format_row (hex (idVendor dev)) (hex (idProduct dev)) product).

(** C9 read literally, for one device: when reading its product string
    fails, the listing has a row for it with the name ["Unknown"]. *)
Definition unreadable_listed_as_unknown {W} {host : Host W}
    (e : Env W) (dev : Device) : Prop :=
  In dev (enumerate_devices (world e)) ->
  iProduct dev <> 0 ->
  (exists x w, usb_get_string dev (iProduct dev) (world e) = (inl x, w)) ->
  In (row_of dev "Unknown") (stdout (snd (scan_devices e))).

(** ** A scripted bus, to run the program on *)

Record SimWorld : Type := mkSim {
  plugged : list Device;
  (** what the coming writes do: [None] succeeds, [Some msg] is a
      [USBError] *)
  write_script : list (option string);
  (** whether the device is gone after a failed write *)
  unplug_on_error : bool;
  (** addresses of the devices that refuse [set_configuration] *)
  unclaimable : list Z;
  (** product strings by address; a device without one cannot be read *)
  products : list (Z * string)
}.

Definition sim_set_configuration (d : Device) (w : SimWorld)
    : (exn + unit) * SimWorld :=
  if existsb (Z.eqb (address d)) (unclaimable w)
  then (inl (USBError "Access denied (insufficient permissions)"), w)
  else (inr tt, w).

Definition sim_write (d : Device) (endpoint : pyval) (data : list Z)
    (w : SimWorld) : (exn + unit) * SimWorld :=
  match write_script w with
  | [] => (inr tt, w)
  | None :: rest =>
      (inr tt, mkSim (plugged w) rest (unplug_on_error w) (unclaimable w)
                 (products w))
  | Some msg :: rest =>
      (inl (USBError msg),
       mkSim (if unplug_on_error w
              then List.filter (fun d' => negb (address d' =? address d)) (plugged w)
              else plugged w)
             rest (unplug_on_error w) (unclaimable w) (products w))
  end.

Definition sim_get_string (d : Device) (index : Z) (w : SimWorld)
    : (exn + string) * SimWorld :=
  match List.find (fun p => fst p =? address d) (products w) with
  | Some p => (inr (snd p), w)
  | None => (inl (USBError "Access denied (insufficient permissions)"), w)
  end.

(** Plain hexadecimal literals, with an optional [0x]: the part of
    [int(s, 16)] the examples need. *)
Fixpoint hex_digits (s : string) (acc : Z) : option Z :=
  match s with
  | EmptyString => Some acc
  | String c s' =>
      if is_hex_digit c then hex_digits s' (16 * acc + PyLong_DigitValue c)
      else None
  end.

Definition sim_int16 (s : string) : option Z :=
  match s with
  | EmptyString => None
  | String "0" (String "x" (String c s')) => hex_digits (String c s') 0
  | _ => hex_digits s 0
  end.

#[export] Instance sim_host : Host SimWorld := {
  enumerate_devices := plugged;
  usb_set_configuration := sim_set_configuration;
  usb_write := sim_write;
  usb_get_string := sim_get_string;
  int16 := sim_int16;
  CONFIG_FILE := "config.json"
}.

(** Devices: address, vendor id, product id, product string index. *)
Definition lianli : Device := mkDevice 5 1046 29593 2.
Definition keyboard : Device := mkDevice 3 1133 49948 0.
Definition lianli_twin : Device := mkDevice 7 1046 29593 2.

Definition sim_env (w : SimWorld) : Env SimWorld := mkEnv w [] [] NoFile.

(** The next write times out and the one after it succeeds. *)
Definition flaky_bus : SimWorld :=
  mkSim [keyboard; lianli] [Some "Operation timed out"; None] false [] [].
(** The object holds the second of two devices with the same ids; the
    next write times out and the one after it succeeds. *)
Definition twin_first_bus : SimWorld :=
  mkSim [lianli_twin; lianli] [Some "Operation timed out"; None] false [] [].
(** The device is unplugged by the time its first write fails. *)
Definition unplugging_bus : SimWorld :=
  mkSim [lianli] [Some "No such device"] true [] [].
(** Every transfer succeeds; two devices have the same pair of ids. *)
Definition steady_bus : SimWorld :=
  mkSim [keyboard; lianli; lianli_twin] [] false [] [].

(** The object after [connect] has found [lianli]. *)
Definition lianli_object : RGBDevice :=
  mkRGBDevice (PInt 1046) (PInt 29593) (PInt 2) (Some lianli).

(** Two devices, neither with a readable product string. *)
Definition no_product_strings : SimWorld :=
  mkSim [keyboard; lianli] [] false [] [].

(** The object before [connect] has run. *)
Definition fresh_object : RGBDevice :=
  mkRGBDevice (PInt 1046) (PInt 29593) (PInt 2) None.

(** The file a successful first run leaves. *)
Definition saved_file : file_content :=
  Parsed (CDict (config_data (PStr "0416") (PStr "7399") (PInt 2)
                   (PStr DEFAULT_PACKET_HEADER) (PStr DEFAULT_PACKET_FOOTER))).

(** ** Notions the further properties are stated with *)

(** No character of [s] is an ASCII capital. *)
Fixpoint no_capital (s : string) : bool :=
  match s with
  | EmptyString => true
  | String c s' => negb ((65 <=? ord c) && (ord c <=? 90)) && no_capital s'
  end.

(** The character [x] does not occur in [s]. *)
Fixpoint lacks (x : ascii) (s : string) : bool :=
  match s with
  | EmptyString => true
  | String c s' => negb (Ascii.eqb c x) && lacks x s'
  end.


(** The dictionary that [load_config] gives for a file, when it gives one. *)
Definition loaded_dict (c : file_content) : option (gmap string pyval) :=
  match c with
  | NoFile | Unparsable => Some ∅
  | Parsed (CDict d) => Some d
  | Parsed COther => None
  | Unreadable _ => None
  end.

(** An id as [manual_set_color] settles it: the command line argument when
    it is given and not empty, else the entry of the configuration. *)
Definition chosen (arg : option string) (d : gmap string pyval)
    (key : string) : pyval :=
  if truthy (arg_value arg) then arg_value arg
  else from_option id PNone (d !! key).

(** The three lines printed when an id is missing. *)
Definition usage_lines : list out_line :=
  [Text "Error: VID and PID are missing.";
   Text "Usage first time: python main.py set <color> --vid <vid> --pid <pid>";
   Text "Run 'python main.py scan' to find your device IDs."].

(** The notice that ends an empty listing. *)
Definition no_device_notice : out_line :=
  Text "No devices found or permission denied (Try running as Admin).".

(** The two lines that head the listing. *)
Definition listing_head : list out_line :=
  [Text (format_row "VID" "PID" "Product Name"); Text (str_mul "-" 50)].

(** A read of the product string of one of [devices], which has one. *)
Definition product_read (devices : list Device) (ev : usb_event) : Prop :=
  exists dev, In dev devices /\ iProduct dev <> 0 /\
              ev = EvGetString dev (iProduct dev).

(** Only the keyboard is plugged in. *)
Definition keyboard_only : SimWorld := mkSim [keyboard] [] false [] [].
(** The device is there and refuses [set_configuration]. *)
Definition locked_bus : SimWorld := mkSim [keyboard; lianli] [] false [5] [].

(** The warning of [load_config]. *)
Definition corrupt_warning : out_line :=
  Text "Warning: Config file is corrupted. Starting fresh.".

(** * Properties *)

(** ** Hexadecimal decoding *)

Ltac by_ascii_cases c :=
  destruct c as [[] [] [] [] [] [] [] []];
  vm_compute; try reflexivity; try discriminate; auto.

Lemma lower_char_digit c : PyLong_DigitValue (lower_char c) = PyLong_DigitValue c.
Proof. by_ascii_cases c. Qed.

Lemma lower_char_space c : Py_ISSPACE (lower_char c) = Py_ISSPACE c.
Proof. by_ascii_cases c. Qed.

Lemma space_not_hex c : Py_ISSPACE c = true -> is_hex_digit c = false.
Proof. by_ascii_cases c. Qed.

Lemma is_hex_digit_ge c : is_hex_digit c = negb (16 <=? PyLong_DigitValue c).
Proof.
  unfold is_hex_digit.
  destruct (Z.ltb_spec (PyLong_DigitValue c) 16);
    destruct (Z.leb_spec 16 (PyLong_DigitValue c)); simpl; auto; lia.
Qed.

(** One step of the decoding loop, with the digit tests as [is_hex_digit]. *)
Lemma fromhex_cons c s :
  fromhex (String c s) =
  if Py_ISSPACE c then fromhex s
  else if is_hex_digit c then
    match s with
    | EmptyString => None
    | String d s'' =>
        if is_hex_digit d then
          match fromhex s'' with
          | Some bs =>
              Some (Z.shiftl (PyLong_DigitValue c) 4 + PyLong_DigitValue d :: bs)
          | None => None
          end
        else None
    end
  else None.
Proof.
  simpl. destruct (Py_ISSPACE c); [reflexivity|].
  rewrite is_hex_digit_ge.
  destruct (16 <=? PyLong_DigitValue c); simpl; [reflexivity|].
  destruct s as [|d s'']; [reflexivity|].
  rewrite is_hex_digit_ge. destruct (16 <=? PyLong_DigitValue d); reflexivity.
Qed.

(** Induction that follows the decoding loop: one character or two at a
    time. *)
Lemma string_ind2 (P : string -> Prop) :
  P EmptyString ->
  (forall c, P (String c EmptyString)) ->
  (forall c d s, P s -> P (String d s) -> P (String c (String d s))) ->
  forall s, P s.
Proof.
  intros H0 H1 H2 s.
  assert (H : P s /\ forall c, P (String c s)).
  { induction s as [|d s [IH IH']].
    - split; [exact H0 | exact H1].
    - split; [apply IH' | intros c; apply H2; [exact IH | apply IH']]. }
  apply H.
Qed.

Lemma fromhex_lower s : fromhex (lower s) = fromhex s.
Proof.
  induction s as [|c|c d s IH IH'] using string_ind2.
  - reflexivity.
  - cbn [lower]. rewrite !fromhex_cons.
    unfold is_hex_digit. rewrite lower_char_space, lower_char_digit. reflexivity.
  - cbn [lower]. rewrite (fromhex_cons (lower_char c)), (fromhex_cons c).
    unfold is_hex_digit. rewrite lower_char_space, !lower_char_digit.
    cbn [lower] in IH'. rewrite IH', IH. reflexivity.
Qed.

Lemma fromhex_HexText s : is_Some (fromhex s) <-> HexText s.
Proof.
  induction s as [|c|c d s IH IH'] using string_ind2.
  - split; [constructor | intros _; exists []; reflexivity].
  - rewrite fromhex_cons. split.
    + destruct (Py_ISSPACE c) eqn:Hs.
      * intros _. constructor; [exact Hs | constructor].
      * destruct (is_hex_digit c); intros [? ?]; discriminate.
    + intros H. inversion H as [|c' s' Hsp Hrest|]; subst.
      rewrite Hsp. exists []; reflexivity.
  - rewrite fromhex_cons. split.
    + destruct (Py_ISSPACE c) eqn:Hs.
      * intros H. constructor; [exact Hs | apply IH', H].
      * destruct (is_hex_digit c) eqn:Hc; [|intros [? ?]; discriminate].
        destruct (is_hex_digit d) eqn:Hd; [|intros [? ?]; discriminate].
        intros H. apply HexText_pair; auto. apply IH.
        destruct (fromhex s); [eauto | destruct H; discriminate].
    + intros H. inversion H as [|c' s' Hsp Hrest|a b s' Ha Hb Hrest]; subst.
      * rewrite Hsp. apply IH'. assumption.
      * destruct (Py_ISSPACE c) eqn:Hs.
        { apply space_not_hex in Hs. congruence. }
        rewrite Ha, Hb. apply IH in Hrest as [bs ->]. eauto.
Qed.

Lemma fromhex_None_iff s : fromhex s = None <-> ~ HexText s.
Proof.
  rewrite <- fromhex_HexText. destruct (fromhex s); split; intros H.
  - discriminate.
  - exfalso. apply H. eauto.
  - intros [? ?]. discriminate.
  - reflexivity.
Qed.

(** Without whitespace the accepted strings are the hexadecimal strings of
    even length. *)
Lemma fromhex_no_space s :
  has_space s = false -> (fromhex s = None <-> odd_or_non_hex s = true).
Proof.
  unfold odd_or_non_hex.
  induction s as [|c|c d s IH IH'] using string_ind2; intros Hsp.
  - split; discriminate.
  - rewrite fromhex_cons. cbn in Hsp. apply orb_false_elim in Hsp as [-> _].
    split; [reflexivity|]. destruct (is_hex_digit c); reflexivity.
  - rewrite fromhex_cons. cbn [has_space] in Hsp.
    apply orb_false_elim in Hsp as [Hc Hsp].
    pose proof Hsp as Hsp'. apply orb_false_elim in Hsp' as [Hd Hs].
    rewrite Hc. specialize (IH Hs).
    change (String.length (String c (String d s))) with (S (S (String.length s))).
    cbn [all_hex].
    change (Nat.odd (S (S (String.length s)))) with (Nat.odd (String.length s)).
    destruct (is_hex_digit c); cbn [andb negb].
    2:{ rewrite orb_true_r. tauto. }
    destruct (is_hex_digit d); cbn [andb negb].
    2:{ rewrite orb_true_r. tauto. }
    destruct (fromhex s).
    + split; [discriminate|]. intros H. apply IH in H. discriminate.
    + split; [|reflexivity]. intros _. apply IH. reflexivity.
Qed.

Lemma fromhex_all_hex s :
  all_hex s = true -> Nat.even (String.length s) = true ->
  exists bs, fromhex s = Some bs /\
             List.length bs = Nat.div (String.length s) 2.
Proof.
  induction s as [|c|c d s IH _] using string_ind2; intros Hh He.
  - exists []; split; reflexivity.
  - discriminate.
  - cbn [all_hex] in Hh. apply andb_prop in Hh as [Hc Hh].
    apply andb_prop in Hh as [Hd Hh].
    change (String.length (String c (String d s))) with (S (S (String.length s))) in *.
    change (Nat.even (S (S (String.length s)))) with (Nat.even (String.length s)) in He.
    destruct (IH Hh He) as (bs & Hbs & Hlen).
    rewrite fromhex_cons.
    destruct (Py_ISSPACE c) eqn:Hs; [apply space_not_hex in Hs; congruence|].
    rewrite Hc, Hd, Hbs. eexists; split; [reflexivity|].
    cbn [List.length]. rewrite Hlen.
    change (S (S (String.length s))) with (2 + String.length s)%nat.
    replace (2 + String.length s)%nat with (String.length s + 1 * 2)%nat by lia.
    rewrite Nat.div_add by lia. lia.
Qed.

(** *** Strings *)

Lemma app_cons c (s t : string) : String c s +:+ t = String c (s +:+ t).
Proof. reflexivity. Qed.

Lemma app_nil_l (t : string) : "" +:+ t = t.
Proof. reflexivity. Qed.

Lemma length_app (s t : string) :
  String.length (s +:+ t) = (String.length s + String.length t)%nat.
Proof.
  induction s as [|c s IH]; [reflexivity|].
  rewrite app_cons. cbn [String.length]. rewrite IH. reflexivity.
Qed.

Lemma all_hex_app (s t : string) : all_hex (s +:+ t) = all_hex s && all_hex t.
Proof.
  induction s as [|c s IH]; [reflexivity|].
  rewrite app_cons. cbn [all_hex]. rewrite IH, andb_assoc. reflexivity.
Qed.

Lemma length_lower s : String.length (lower s) = String.length s.
Proof. induction s as [|c s IH]; cbn; congruence. Qed.

Lemma all_hex_lower s : all_hex (lower s) = all_hex s.
Proof.
  induction s as [|c s IH]; [reflexivity|].
  cbn [lower all_hex]. unfold is_hex_digit at 1.
  rewrite lower_char_digit, IH. reflexivity.
Qed.

Lemma startswith_nil s : startswith s "" = true.
Proof. destruct s; reflexivity. Qed.

(** [replace] with the one-character pattern of the program drops every
    occurrence of that character. *)
Lemma replace_char x s : replace s (String x "") "" = without_char x s.
Proof.
  unfold replace. induction s as [|c s IH]; [reflexivity|].
  cbn [replace_from without_char startswith String.length Nat.pred].
  rewrite startswith_nil, andb_true_r, app_nil_l, IH. destruct (Ascii.eqb c x); reflexivity.
Qed.

Lemma without_char_idem x s : without_char x (without_char x s) = without_char x s.
Proof.
  induction s as [|c s IH]; [reflexivity|].
  cbn [without_char]. destruct (Ascii.eqb c x) eqn:E; [exact IH|].
  cbn [without_char]. rewrite E, IH. reflexivity.
Qed.

Lemma without_hash_all_hex s : all_hex s = true -> without_char "#" s = s.
Proof.
  induction s as [|c s IH]; [reflexivity|].
  cbn [all_hex without_char]. intros [Hc Hs]%andb_prop.
  rewrite (IH Hs). destruct (Ascii.eqb_spec c "#") as [->|_]; [discriminate|reflexivity].
Qed.

Lemma chr_ord c : chr (ord c) = c.
Proof. unfold chr, ord. rewrite N2Z.id. apply ascii_N_embedding. Qed.

Lemma same_char_lower a b :
  same_char_ignoring_case a b = true -> lower_char a = lower_char b.
Proof.
  unfold same_char_ignoring_case, lower_char.
  intros H. apply orb_prop in H as [H|H]; [apply orb_prop in H as [H|H]|].
  - apply Ascii.eqb_eq in H. subst. reflexivity.
  - apply andb_prop in H as [H Hb]. rewrite H.
    apply andb_prop in H as [H1 H2].
    apply Z.leb_le in H1, H2. apply Z.eqb_eq in Hb.
    destruct (Z.leb_spec 65 (ord b)); destruct (Z.leb_spec (ord b) 90);
      cbn [andb]; try lia.
    rewrite <- Hb. apply chr_ord.
  - apply andb_prop in H as [H Ha]. rewrite H.
    apply andb_prop in H as [H1 H2].
    apply Z.leb_le in H1, H2. apply Z.eqb_eq in Ha.
    destruct (Z.leb_spec 65 (ord a)); destruct (Z.leb_spec (ord a) 90);
      cbn [andb]; try lia.
    rewrite <- Ha. symmetry. apply chr_ord.
Qed.

Lemma same_ignoring_case_lower s t :
  same_ignoring_case s t = true -> lower s = lower t.
Proof.
  revert t. induction s as [|a s IH]; intros [|b t] H; try discriminate.
  - reflexivity.
  - cbn [same_ignoring_case] in H. apply andb_prop in H as [Hc Hs].
    cbn [lower]. rewrite (same_char_lower _ _ Hc), (IH _ Hs). reflexivity.
Qed.

Lemma without_char_same_case x s t :
  same_ignoring_case s t = true ->
  is_hex_digit x = false -> lower_char x = x ->
  (forall c, lower_char c = x -> c = x) ->
  same_ignoring_case (without_char x s) (without_char x t) = true.
Proof.
  intros H Hx Hlow Hinj. revert t H.
  induction s as [|a s IH]; intros [|b t] H; try discriminate.
  - reflexivity.
  - cbn [same_ignoring_case] in H. apply andb_prop in H as [Hc Hs].
    cbn [without_char].
    assert (E : Ascii.eqb a x = Ascii.eqb b x).
    { apply same_char_lower in Hc.
      destruct (Ascii.eqb_spec a x) as [->|Ha]; destruct (Ascii.eqb_spec b x) as [->|Hb];
        try reflexivity.
      - exfalso. apply Hb, Hinj. rewrite <- Hc. exact Hlow.
      - exfalso. apply Ha, Hinj. rewrite Hc. exact Hlow. }
    rewrite <- E. destruct (Ascii.eqb a x); [apply IH, Hs|].
    cbn [same_ignoring_case]. rewrite Hc. apply IH, Hs.
Qed.

Lemma lower_hash c : lower_char c = "#"%char -> c = "#"%char.
Proof. by_ascii_cases c. Qed.

(** ** Payload construction *)

Lemma buildPayload_None header hex_color footer :
  buildPayload header hex_color footer = inl InvalidPayload <->
  fromhex (full_payload header hex_color footer) = None.
Proof.
  unfold buildPayload.
  destruct (fromhex (full_payload header hex_color footer));
    split; intros H; try discriminate; reflexivity.
Qed.

Lemma normalize_color_without_hash c :
  normalize_color c = lower (without_char "#" c).
Proof. unfold normalize_color. rewrite replace_char. reflexivity. Qed.

(** C1, as stated, fails: the joined string ["01 ff"] has odd length and
    holds a space, and it decodes to two bytes. *)
Lemma buildPayload_whitespace_accepted :
  ~ refused_iff_odd_or_non_hex "01 " "ff" "".
Proof.
  unfold refused_iff_odd_or_non_hex. intros [_ H].
  specialize (H eq_refl). vm_compute in H. discriminate.
Qed.

(** C1, amended: [buildPayload] fails with [InvalidPayload] exactly when
    the joined header, normalised colour and footer is not a sequence of
    pairs of hexadecimal digits with optional ASCII whitespace before,
    between and after the pairs; for a joined string without ASCII
    whitespace, that is exactly when it has odd length or holds a character
    that is not a hexadecimal digit.  The three parts are judged as one
    string, so a malformed colour alone makes it fail. *)
Theorem buildPayload_invalid_iff header hex_color footer :
  (buildPayload header hex_color footer = inl InvalidPayload <->
   ~ HexText (full_payload header hex_color footer)) /\
  (has_space (full_payload header hex_color footer) = false ->
   (buildPayload header hex_color footer = inl InvalidPayload <->
    odd_or_non_hex (full_payload header hex_color footer) = true)).
Proof.
  split.
  - rewrite buildPayload_None. apply fromhex_None_iff.
  - intros Hsp. rewrite buildPayload_None. apply fromhex_no_space, Hsp.
Qed.

Lemma buildPayload_invalid_iff_witness :
  buildPayload "018500" "GG0000" "1800" = inl InvalidPayload.
Proof.
  apply (proj2 (buildPayload_invalid_iff "018500" "GG0000" "1800") eq_refl).
  reflexivity.
Defined.

(** C5, as stated, fails: with the header ["01  "] the joined string
    ["01  ff"] has six characters and decodes to two bytes, the two spaces
    being skipped. *)
Lemma buildPayload_length_whitespace_header :
  ~ half_length_payload "01  " "ff" "".
Proof.
  intros H. destruct (H eq_refl eq_refl) as (packet_data & Hdata & Hlen).
  vm_compute in Hdata. injection Hdata as <-. vm_compute in Hlen.
  discriminate Hlen.
Qed.

(** C5, amended: with a header and a footer of hexadecimal digits only, of
    even length together, a hexadecimal colour of even length gives a
    payload of half as many bytes as the joined string has characters. *)
Theorem buildPayload_length header h footer :
  all_hex header = true -> all_hex footer = true ->
  Nat.even (String.length header + String.length footer) = true ->
  all_hex h = true -> Nat.even (String.length h) = true ->
  exists packet_data,
    buildPayload header h footer = inr packet_data /\
    List.length packet_data =
      Nat.div (String.length header + String.length h + String.length footer) 2.
Proof.
  intros Hhd Hft Heven Hh Hhe.
  assert (Hn : normalize_color h = lower h).
  { rewrite normalize_color_without_hash, without_hash_all_hex by exact Hh.
    reflexivity. }
  destruct (fromhex_all_hex (full_payload header h footer)) as (bs & Hbs & Hlen).
  - unfold full_payload. rewrite Hn, !all_hex_app, all_hex_lower, Hhd, Hh, Hft.
    reflexivity.
  - unfold full_payload. rewrite Hn, !length_app, length_lower.
    replace (String.length header + String.length h + String.length footer)%nat
      with (String.length h + (String.length header + String.length footer))%nat
      by lia.
    rewrite Nat.even_add, Hhe, Heven. reflexivity.
  - exists bs. unfold buildPayload. rewrite Hbs. split; [reflexivity|].
    rewrite Hlen. unfold full_payload. rewrite Hn, !length_app, length_lower.
    reflexivity.
Qed.

Lemma buildPayload_length_witness :
  exists packet_data,
    buildPayload DEFAULT_PACKET_HEADER "ff0000" DEFAULT_PACKET_FOOTER
      = inr packet_data /\
    List.length packet_data = 64%nat.
Proof.
  apply (buildPayload_length DEFAULT_PACKET_HEADER "ff0000" DEFAULT_PACKET_FOOTER);
    reflexivity.
Defined.

(** C6: a leading [#] on the colour changes nothing, and neither does the
    case of its letters. *)
Theorem buildPayload_hash_and_case :
  (forall header hex_color footer,
     buildPayload header (String "#" hex_color) footer
     = buildPayload header hex_color footer) /\
  (forall header c1 c2 footer,
     same_ignoring_case c1 c2 = true ->
     buildPayload header c1 footer = buildPayload header c2 footer).
Proof.
  split.
  - intros header c footer. unfold buildPayload, full_payload.
    rewrite !normalize_color_without_hash. reflexivity.
  - intros header c1 c2 footer H. unfold buildPayload, full_payload.
    rewrite !normalize_color_without_hash.
    rewrite (same_ignoring_case_lower (without_char "#" c1) (without_char "#" c2));
      [reflexivity|].
    apply without_char_same_case; [exact H|reflexivity|reflexivity|].
    apply lower_hash.
Qed.

Lemma buildPayload_hash_and_case_witness :
  buildPayload "0185" "#FfAa00" "18" = buildPayload "0185" "ffaa00" "18".
Proof.
  rewrite (proj1 buildPayload_hash_and_case).
  apply (proj2 buildPayload_hash_and_case). reflexivity.
Defined.

(** The payload is a sequence of bytes. *)
Lemma fromhex_bytes s bs :
  fromhex s = Some bs -> Forall (fun b => 0 <= b < 256) bs.
Proof.
  revert bs. induction s as [|c|c d s IH IH'] using string_ind2; intros bs.
  - intros [= <-]. constructor.
  - rewrite fromhex_cons. destruct (Py_ISSPACE c).
    + intros [= <-]. constructor.
    + destruct (is_hex_digit c); discriminate.
  - rewrite fromhex_cons. destruct (Py_ISSPACE c); [apply IH'|].
    destruct (is_hex_digit c) eqn:Hc; [|discriminate].
    destruct (is_hex_digit d) eqn:Hd; [|discriminate].
    destruct (fromhex s) as [bs'|]; [|discriminate].
    intros [= <-]. constructor; [|apply IH; reflexivity].
    unfold is_hex_digit in Hc, Hd. apply Z.ltb_lt in Hc, Hd.
    assert (0 <= PyLong_DigitValue c) by (clear; by_ascii_cases c).
    assert (0 <= PyLong_DigitValue d) by (clear; by_ascii_cases d).
    rewrite Z.shiftl_mul_pow2 by lia. change (2 ^ 4) with 16. lia.
Qed.

(** ** Locating the device *)

Section Locate.
Context {W : Type} {host : Host W}.

(** [connect], one case per outcome of the search. *)
Lemma connect_cases (self : RGBDevice) (e : Env W) :
  connect (self, e) =
  let e1 := log (EvFind (self_vid self) (self_pid self)) e in
  match List.find (matches (self_vid self) (self_pid self))
          (enumerate_devices (world e)) with
  | None =>
      (match py_hex (self_vid self), py_hex (self_pid self) with
       | inr hv, inr hp => inl (ValueError (DeviceNotFound_msg hv hp))
       | inl x, _ => inl x
       | inr _, inl x => inl x
       end, (set_dev None self, e1))
  | Some d =>
      (fst (usb_set_configuration d (world e)),
       (set_dev (Some d) self,
        set_world (snd (usb_set_configuration d (world e)))
          (log (EvSetConfiguration d) e1)))
  end.
Proof.
  unfold connect, bind, get_self, in_env, usb_core_find, assign_dev. cbn.
  destruct (List.find _ _) as [d|].
  - unfold set_configuration. cbn.
    destruct (usb_set_configuration d (world e)) as [r w]. reflexivity.
  - unfold lift_result, raise, ret.
    destruct (py_hex (self_vid self)); [reflexivity|].
    destruct (py_hex (self_pid self)); reflexivity.
Qed.

Lemma find_none {A} (f : A -> bool) l :
  (forall x, In x l -> f x = false) -> List.find f l = None.
Proof.
  induction l as [|a l IH]; intros H; [reflexivity|].
  cbn. rewrite (H a) by (left; reflexivity). apply IH.
  intros x Hx. apply H. right. exact Hx.
Qed.

Lemma find_first {A} (f : A -> bool) l1 x l2 :
  (forall y, In y l1 -> f y = false) -> f x = true ->
  List.find f (l1 ++ x :: l2) = Some x.
Proof.
  induction l1 as [|a l1 IH]; intros H Hx; cbn.
  - rewrite Hx. reflexivity.
  - rewrite (H a) by (left; reflexivity). apply IH; [|exact Hx].
    intros y Hy. apply H. right. exact Hy.
Qed.

Lemma matches_int v p d :
  matches (PInt v) (PInt p) d = true <-> idVendor d = v /\ idProduct d = p.
Proof.
  unfold matches, py_eq_int. rewrite andb_true_iff, !Z.eqb_eq.
  split; intros [? ?]; split; congruence.
Qed.

Lemma matches_int_false v p d :
  ~ (idVendor d = v /\ idProduct d = p) -> matches (PInt v) (PInt p) d = false.
Proof.
  intros H. destruct (matches (PInt v) (PInt p) d) eqn:E; [|reflexivity].
  apply matches_int in E. contradiction.
Qed.

(** C4: [connect] on the pair [(v, p)].  When no enumerated device has
    that pair it raises the not-found error, and the object holds no
    handle.  When [d] is the first enumerated device with that pair, the
    handle of the object is [d] and [set_configuration] is called on [d]
    once, after the search and before returning; what that call raises,
    [connect] raises, with no second attempt. *)
Theorem connect_first_match (self : RGBDevice) (e : Env W) (v p : Z) :
  self_vid self = PInt v -> self_pid self = PInt p ->
  ((forall d, In d (enumerate_devices (world e)) ->
              ~ (idVendor d = v /\ idProduct d = p)) ->
   exists self' e',
     connect (self, e) =
       (inl (ValueError ("Device VID:" +:+ hex v +:+ " PID:" +:+ hex p +:+
                         " not found. Please check connection.")),
        (self', e')) /\
     self_dev self' = None /\
     self_vid self' = PInt v /\ self_pid self' = PInt p /\
     self_endpoint self' = self_endpoint self /\
     world e' = world e /\
     trace e' = trace e ++ [EvFind (PInt v) (PInt p)] /\
     stdout e' = stdout e /\ config_file e' = config_file e) /\
  (forall l1 d l2,
     enumerate_devices (world e) = l1 ++ d :: l2 ->
     (forall d', In d' l1 -> ~ (idVendor d' = v /\ idProduct d' = p)) ->
     idVendor d = v /\ idProduct d = p ->
     exists self' e',
       connect (self, e) =
         (fst (usb_set_configuration d (world e)), (self', e')) /\
       self_dev self' = Some d /\
       self_vid self' = PInt v /\ self_pid self' = PInt p /\
       self_endpoint self' = self_endpoint self /\
       world e' = snd (usb_set_configuration d (world e)) /\
       trace e' =
         trace e ++ [EvFind (PInt v) (PInt p); EvSetConfiguration d] /\
       stdout e' = stdout e /\ config_file e' = config_file e).
Proof.
  intros Hv Hp. split.
  - intros Hnone. rewrite connect_cases, Hv, Hp. cbn zeta.
    rewrite find_none.
    2:{ intros d Hd. apply matches_int_false, Hnone, Hd. }
    eexists _, _. split; [reflexivity|]. cbn.
    repeat split; assumption.
  - intros l1 d l2 Hl Hl1 Hd. rewrite connect_cases, Hv, Hp, Hl. cbn zeta.
    rewrite find_first.
    + eexists _, _. split; [reflexivity|]. cbn.
      rewrite <- app_assoc. repeat split; assumption.
    + intros d' Hd'. apply matches_int_false, Hl1, Hd'.
    + apply matches_int, Hd.
Qed.

End Locate.

Lemma connect_first_match_witness :
  exists self' e',
    connect (fresh_object, sim_env steady_bus) = (inr tt, (self', e')) /\
    self_dev self' = Some lianli /\
    self_vid self' = PInt 1046 /\ self_pid self' = PInt 29593 /\
    self_endpoint self' = PInt 2 /\
    world e' = steady_bus /\
    trace e' = [EvFind (PInt 1046) (PInt 29593); EvSetConfiguration lianli] /\
    stdout e' = [] /\ config_file e' = NoFile.
Proof.
  refine (proj2 (connect_first_match fresh_object (sim_env steady_bus)
                   1046 29593 eq_refl eq_refl)
            [keyboard] lianli [lianli_twin] eq_refl _ _).
  - intros d' [<-|[]] [H _]. discriminate H.
  - split; reflexivity.
Defined.

(** ** Sending the packet *)

Section Send.
Context {W : Type} {host : Host W}.

Lemma write_eq d endpoint data (e : Env W) :
  write d endpoint data e =
    (fst (usb_write d endpoint data (world e)), after_write d endpoint data e).
Proof.
  unfold write, after_write.
  destruct (usb_write d endpoint data (world e)); reflexivity.
Qed.

Lemma dev_write_eq data (self : RGBDevice) (e : Env W) d :
  self_dev self = Some d ->
  dev_write data (self, e) =
    (fst (usb_write d (self_endpoint self) data (world e)),
     (self, after_write d (self_endpoint self) data e)).
Proof.
  intros Hd. unfold dev_write, bind, get_self. cbn. rewrite Hd.
  unfold in_env. rewrite write_eq. reflexivity.
Qed.

(** [send_color_packet] once the payload is built and the object holds a
    handle: one case per outcome of the first write. *)
Lemma send_color_packet_cases header color footer data
    (self : RGBDevice) (e : Env W) d :
  buildPayload header color footer = inr data ->
  self_dev self = Some d ->
  send_color_packet color (PStr header) (PStr footer) (self, e) =
  let e1 := after_write d (self_endpoint self) data e in
  match fst (usb_write d (self_endpoint self) data (world e)) with
  | inr _ => (inr true, (self, e1))
  | inl (USBError msg) =>
      match connect (self, e1) with
      | (inl x, (self1, e2)) =>
          (inr false, (self1, snd (print (FailedToSend x) e2)))
      | (inr _, (self1, e2)) =>
          match dev_write data (self1, e2) with
          | (inr _, (self2, e3)) => (inr true, (self2, e3))
          | (inl x, (self2, e3)) =>
              (inr false, (self2, snd (print (FailedToSend x) e3)))
          end
      end
  | inl x => (inl x, (self, e1))
  end.
Proof.
  intros Hdata Hd. unfold send_color_packet. rewrite Hdata.
  unfold bind at 1. unfold lift_result, ret at 1.
  unfold bind at 1. unfold try_except at 1.
  unfold bind at 1. unfold get_self at 1. cbn beta iota. rewrite Hd.
  unfold bind at 1. rewrite (dev_write_eq data self e d Hd).
  destruct (fst (usb_write d (self_endpoint self) data (world e))) as [x|[]].
  2:{ reflexivity. }
  cbn zeta.
  destruct x; try reflexivity. cbn [is_USBError].
  unfold try_except, bind.
  destruct (connect (self, after_write d (self_endpoint self) data e))
    as [[x|[]] [self1 e2]]; cbv beta iota zeta.
  - reflexivity.
  - destruct (dev_write data (self1, e2)) as [[x|[]] [self2 e3]]; reflexivity.
Qed.

(** C3: when the joined string is not valid hexadecimal,
    [send_color_packet] raises [InvalidPayload] and leaves the object, the
    bus, the trace of transfers, the console and the file as they were. *)
Theorem send_color_packet_invalid_before_io header color footer
    (self : RGBDevice) (e : Env W) :
  fromhex (full_payload header color footer) = None ->
  send_color_packet color (PStr header) (PStr footer) (self, e)
  = (inl InvalidPayload, (self, e)).
Proof.
  intros H. unfold send_color_packet, bind, lift_result, buildPayload.
  rewrite H. reflexivity.
Qed.

Lemma trace_after_write d endpoint data (e : Env W) :
  trace (after_write d endpoint data e) = trace e ++ [EvWrite d endpoint data].
Proof. reflexivity. Qed.

(** C2: when the first write raises a [USBError], [send_color_packet]
    returns [True] or [False] and raises nothing.  It searches once more,
    for the same pair of ids, right after the failed write.  When the
    search finds nothing, that is all, the result is [False] and the
    object holds no handle.  When it finds [d2], the handle of the object
    is [d2] from then on and [set_configuration] is called on [d2]; if that
    raises, the result is [False] with no second write; otherwise the
    payload is written once more, to [d2] and the same endpoint, and the
    result is [True] exactly when that second write succeeds.  Nothing
    else is transferred. *)
Theorem send_color_packet_one_retry header color footer data
    (self : RGBDevice) (e : Env W) d msg :
  buildPayload header color footer = inr data ->
  self_dev self = Some d ->
  fst (usb_write d (self_endpoint self) data (world e)) = inl (USBError msg) ->
  exists ok self' e' rest,
    send_color_packet color (PStr header) (PStr footer) (self, e)
      = (inr ok, (self', e')) /\
    trace e' =
      trace e ++ EvWrite d (self_endpoint self) data
              :: EvFind (self_vid self) (self_pid self) :: rest /\
    self_vid self' = self_vid self /\ self_pid self' = self_pid self /\
    self_endpoint self' = self_endpoint self /\
    config_file e' = config_file e /\
    match List.find (matches (self_vid self) (self_pid self))
            (enumerate_devices
               (snd (usb_write d (self_endpoint self) data (world e)))) with
    | None =>
        rest = [] /\ ok = false /\ self_dev self' = None /\
        world e' = snd (usb_write d (self_endpoint self) data (world e))
    | Some d2 =>
        self_dev self' = Some d2 /\
        match usb_set_configuration d2
                (snd (usb_write d (self_endpoint self) data (world e))) with
        | (inl _, w2) =>
            rest = [EvSetConfiguration d2] /\ ok = false /\ world e' = w2
        | (inr _, w2) =>
            rest = [EvSetConfiguration d2;
                    EvWrite d2 (self_endpoint self) data] /\
            (ok = true <->
             fst (usb_write d2 (self_endpoint self) data w2) = inr tt) /\
            world e' = snd (usb_write d2 (self_endpoint self) data w2)
        end
    end.
Proof.
  intros Hdata Hd Hw.
  rewrite (send_color_packet_cases header color footer data self e d Hdata Hd).
  rewrite Hw. cbv zeta. rewrite connect_cases. cbv zeta.
  set (e1 := after_write d (self_endpoint self) data e).
  change (world e1) with (snd (usb_write d (self_endpoint self) data (world e))).
  set (w1 := snd (usb_write d (self_endpoint self) data (world e))).
  destruct (List.find (matches (self_vid self) (self_pid self))
              (enumerate_devices w1)) as [d2|].
  - destruct (usb_set_configuration d2 w1) as [[x|[]] w2] eqn:Hsc; cbn [fst snd].
    + eexists false, _, _, [EvSetConfiguration d2].
      split; [reflexivity|]. split.
      { cbn. rewrite <- !app_assoc. reflexivity. }
      cbn. repeat split.
    + rewrite (dev_write_eq data (set_dev (Some d2) self) _ d2 eq_refl).
      cbn [self_endpoint set_dev].
      destruct (fst (usb_write d2 (self_endpoint self) data _)) as [x|[]] eqn:Hw2.
      * eexists false, _, _,
          [EvSetConfiguration d2; EvWrite d2 (self_endpoint self) data].
        split; [reflexivity|]. split.
        { cbn. rewrite <- !app_assoc. reflexivity. }
        assert (Hw2' : fst (usb_write d2 (self_endpoint self) data w2) = inl x)
          by exact Hw2.
        repeat split; try reflexivity; try discriminate;
          intros H; rewrite Hw2' in H; discriminate H.
      * eexists true, _, _,
          [EvSetConfiguration d2; EvWrite d2 (self_endpoint self) data].
        split; [reflexivity|]. split.
        { cbn. rewrite <- !app_assoc. reflexivity. }
        assert (Hw2' : fst (usb_write d2 (self_endpoint self) data w2) = inr tt)
          by exact Hw2.
        repeat split; try reflexivity; exact Hw2'.
  - assert (Hraise : exists x,
      match py_hex (self_vid self), py_hex (self_pid self) with
      | inr hv, inr hp => inl (ValueError (DeviceNotFound_msg hv hp))
      | inl x, _ => inl x
      | inr _, inl x => inl x
      end = (inl x : exn + unit)).
    { destruct (py_hex (self_vid self)); [eauto|].
      destruct (py_hex (self_pid self)); eauto. }
    destruct Hraise as [x ->].
    eexists false, _, _, []. split; [reflexivity|]. split.
    { cbn. rewrite <- !app_assoc. reflexivity. }
    cbn. repeat split.
Qed.

End Send.

(** ** What a computation leaves unchanged *)

Section Keeps.
Context {S B : Type} (proj : S -> B).

Lemma keeps_ret {A} (a : A) : keeps proj (ret a).
Proof. intros s. reflexivity. Qed.

Lemma keeps_raise {A} x : keeps proj (raise x : M S A).
Proof. intros s. reflexivity. Qed.

Lemma keeps_lift_result {A} (r : exn + A) : keeps proj (lift_result r).
Proof. destruct r; intros s; reflexivity. Qed.

Lemma keeps_bind {A C} (m : M S A) (k : A -> M S C) :
  keeps proj m -> (forall a, keeps proj (k a)) -> keeps proj (bind m k).
Proof.
  intros Hm Hk s. unfold bind. specialize (Hm s).
  destruct (m s) as [[x|a] s']; cbn in *; [exact Hm|].
  rewrite Hk. exact Hm.
Qed.

Lemma keeps_try_except {A} (body : M S A) catches handler :
  keeps proj body -> (forall x, keeps proj (handler x)) ->
  keeps proj (try_except body catches handler).
Proof.
  intros Hb Hh s. unfold try_except. specialize (Hb s).
  destruct (body s) as [[x|a] s']; cbn in *; [|exact Hb].
  destruct (catches x); [|exact Hb]. rewrite Hh. exact Hb.
Qed.

End Keeps.

(** What [save_config] dumps, key by key. *)
Lemma config_data_lookup vid pid endpoint header footer :
  let d := config_data vid pid endpoint header footer in
  d !! "vid" = Some vid /\ d !! "pid" = Some pid /\
  d !! "endpoint" = Some endpoint /\
  d !! "packet_header" = Some header /\ d !! "packet_footer" = Some footer.
Proof.
  unfold config_data. cbv zeta.
  repeat split;
    repeat (rewrite lookup_insert_ne by discriminate);
    apply lookup_insert_eq.
Qed.

Lemma config_data_keys vid pid endpoint header footer key :
  config_data vid pid endpoint header footer !! key <> None ->
  In key ["vid"; "pid"; "endpoint"; "packet_header"; "packet_footer"].
Proof.
  intros Hkey. unfold config_data in Hkey.
  destruct (decide (key = "packet_footer")) as [->|N1]; [cbn; tauto|].
  destruct (decide (key = "packet_header")) as [->|N2]; [cbn; tauto|].
  destruct (decide (key = "endpoint")) as [->|N3]; [cbn; tauto|].
  destruct (decide (key = "pid")) as [->|N4]; [cbn; tauto|].
  destruct (decide (key = "vid")) as [->|N5]; [cbn; tauto|].
  exfalso. apply Hkey.
  rewrite !lookup_insert_ne by congruence. apply lookup_empty.
Qed.

Section Persist.
Context {W : Type} {host : Host W}.

Lemma keeps_in_env {A} (m : M (Env W) A) :
  keeps config_file m -> keeps (@file_of W) (in_env m).
Proof.
  intros H [self e]. unfold in_env, file_of. specialize (H e).
  destruct (m e) as [r e']. exact H.
Qed.

Lemma keeps_print l : keeps config_file (print l : M (Env W) unit).
Proof. intros e. reflexivity. Qed.

Lemma keeps_write d endpoint data : keeps config_file (write d endpoint data).
Proof. intros e. rewrite write_eq. reflexivity. Qed.

Lemma keeps_connect : keeps (@file_of W) connect.
Proof.
  intros [self e]. rewrite connect_cases. cbv zeta.
  destruct (List.find _ _); reflexivity.
Qed.

Lemma keeps_get_self : keeps (@file_of W) get_self.
Proof. intros [self e]. reflexivity. Qed.

Lemma keeps_dev_write data : keeps (@file_of W) (dev_write data).
Proof.
  unfold dev_write. apply keeps_bind; [apply keeps_get_self|]. intros self.
  destruct (self_dev self); [|apply keeps_raise].
  apply keeps_in_env, keeps_write.
Qed.

Lemma keeps_send_color_packet color header footer :
  keeps (@file_of W) (send_color_packet color header footer).
Proof.
  unfold send_color_packet. apply keeps_bind.
  { destruct header; try apply keeps_raise.
    destruct footer; try apply keeps_raise. apply keeps_lift_result. }
  intros data. apply keeps_bind.
  - apply keeps_try_except.
    + apply keeps_bind; [apply keeps_get_self|]. intros self.
      destruct (self_dev self); [|apply keeps_ret].
      apply keeps_bind; [apply keeps_dev_write|]. intros _. apply keeps_ret.
    + intros _. apply keeps_try_except.
      * apply keeps_bind; [apply keeps_connect|]. intros _.
        apply keeps_bind; [apply keeps_dev_write|]. intros _. apply keeps_ret.
      * intros x. apply keeps_bind; [|intros _; apply keeps_ret].
        apply keeps_in_env, keeps_print.
  - intros [v|]; apply keeps_ret.
Qed.

Lemma keeps_RGBDevice_init vid pid endpoint :
  keeps config_file (RGBDevice_init vid pid endpoint).
Proof.
  unfold RGBDevice_init. apply keeps_bind; [apply keeps_lift_result|]. intros v.
  apply keeps_bind; [apply keeps_lift_result|]. intros p e.
  pose proof (keeps_connect (mkRGBDevice v p endpoint None, e)) as H.
  unfold file_of in H.
  destruct (connect (mkRGBDevice v p endpoint None, e)) as [[x|[]] [self e']];
    exact H.
Qed.

Lemma keeps_call {A} device (m : Method A) :
  keeps (@file_of W) m -> keeps config_file (call device m).
Proof.
  intros H e. unfold call. specialize (H (device, e)). unfold file_of in H.
  destruct (m (device, e)) as [r [self e']]. exact H.
Qed.

Lemma keeps_locate_and_send vid pid endpoint color header footer :
  keeps config_file (locate_and_send vid pid endpoint color header footer).
Proof.
  unfold locate_and_send. apply keeps_bind; [apply keeps_RGBDevice_init|].
  intros device. apply keeps_call, keeps_send_color_packet.
Qed.

(** C7: what [manual_set_color] does to the configuration file.  Its
    [try] statement saves the working configuration when locating and
    sending returned [True]: the file then parses to a dictionary with the
    keys [vid], [pid], [endpoint], [packet_header] and [packet_footer],
    holding the values the run worked with, and no other key.  It leaves
    the file as it was when locating and sending returned [False] or
    raised.  The statements before it leave the file as it was. *)
Theorem save_iff_send_succeeds :
  (forall vid pid endpoint color header footer (e : Env W),
     fst (locate_and_send vid pid endpoint color header footer e) = inr true ->
     exists d,
       config_file (snd (send_and_save vid pid endpoint color header footer e))
       = Parsed (CDict d) /\
       d !! "vid" = Some vid /\ d !! "pid" = Some pid /\
       d !! "endpoint" = Some endpoint /\
       d !! "packet_header" = Some header /\
       d !! "packet_footer" = Some footer /\
       (forall key, d !! key <> None ->
          In key ["vid"; "pid"; "endpoint"; "packet_header"; "packet_footer"])) /\
  (forall vid pid endpoint color header footer (e : Env W),
     fst (locate_and_send vid pid endpoint color header footer e) <> inr true ->
     config_file (snd (send_and_save vid pid endpoint color header footer e))
     = config_file e) /\
  (forall args (e : Env W),
     config_file (snd (manual_set_color args e)) = config_file e \/
     exists vid pid endpoint header footer e1,
       config_file e1 = config_file e /\
       manual_set_color args e
       = send_and_save vid pid endpoint (arg_color args) header footer e1).
Proof.
  split; [|split].
  - intros vid pid endpoint color header footer e Hok.
    exists (config_data vid pid endpoint header footer). split.
    + unfold send_and_save, try_except, bind.
      destruct (locate_and_send vid pid endpoint color header footer e)
        as [r e1]. cbn in Hok. subst r. reflexivity.
    + destruct (config_data_lookup vid pid endpoint header footer)
        as (H1 & H2 & H3 & H4 & H5).
      repeat (split; [assumption|]). apply config_data_keys.
  - intros vid pid endpoint color header footer e Hko.
    pose proof (keeps_locate_and_send vid pid endpoint color header footer e)
      as Hkeep.
    unfold send_and_save, try_except, bind.
    destruct (locate_and_send vid pid endpoint color header footer e)
      as [[x|[]] e1]; cbn in *.
    + exact Hkeep.
    + contradiction Hko; reflexivity.
    + exact Hkeep.
  - intros args e.
    assert (Hload : config_file (snd (load_config e)) = config_file e).
    { unfold load_config. destruct (config_file e) eqn:E; cbn; congruence. }
    remember (manual_set_color args e) as res eqn:Hres.
    unfold manual_set_color in Hres. unfold bind at 1 in Hres.
    destruct (load_config e) as [[x|config] e0]; cbn [snd] in Hload.
    { left. subst res. exact Hload. }
    destruct config as [dict|].
    2:{ left. subst res. cbn [dict_get].
        destruct (truthy (arg_value (arg_vid args))) eqn:E1;
          destruct (truthy (arg_value (arg_pid args))) eqn:E2;
          cbn; rewrite ?E1, ?E2; cbn; exact Hload. }
    cbn [dict_get] in Hres.
    set (vid := if truthy (arg_value (arg_vid args)) then _ else _) in Hres.
    assert (Hvid : exists v, vid = (ret v : M (Env W) pyval)).
    { subst vid. destruct (truthy _); eauto. }
    destruct Hvid as [v Hv]. rewrite Hv in Hres. clear vid Hv.
    set (pid := if truthy (arg_value (arg_pid args)) then _ else _) in Hres.
    assert (Hpid : exists p, pid = (ret p : M (Env W) pyval)).
    { subst pid. destruct (truthy _); eauto. }
    destruct Hpid as [p Hp]. rewrite Hp in Hres. clear pid Hp.
    unfold bind at 1 in Hres. cbn [ret] in Hres.
    unfold bind at 1 in Hres. cbn [ret] in Hres.
    destruct (negb (truthy v) || negb (truthy p)).
    { left. subst res. cbn. exact Hload. }
    right. subst res. eexists v, p, _, _, _, _. split; [|reflexivity]. exact Hload.
Qed.

End Persist.

(** ** Listing the devices *)

Section Scan.
Context {W : Type} {host : Host W}.

Lemma scan_device_cases dev count (e : Env W) :
  scan_device dev count e =
  if iProduct dev =? 0
  then (inr (count + 1), snd (print (row_of dev "Unknown") e))
  else
    let e1 :=
      set_world (snd (usb_get_string dev (iProduct dev) (world e)))
        (log (EvGetString dev (iProduct dev)) e) in
    match fst (usb_get_string dev (iProduct dev) (world e)) with
    | inr product => (inr (count + 1), snd (print (row_of dev product) e1))
    | inl _ => (inr count, e1)
    end.
Proof.
  unfold scan_device, try_except, bind, row_of.
  destruct (iProduct dev =? 0); cbn [negb]; [reflexivity|].
  unfold get_string.
  destruct (usb_get_string dev (iProduct dev) (world e)) as [[x|product] w];
    reflexivity.
Qed.

Lemma scan_device_total dev count (e : Env W) :
  exists count' e', scan_device dev count e = (inr count', e') /\
    exists printed, stdout e' = stdout e ++ printed.
Proof.
  rewrite scan_device_cases. destruct (iProduct dev =? 0).
  - eexists _, _. split; [reflexivity|]. eexists. reflexivity.
  - cbv zeta. destruct (fst (usb_get_string dev (iProduct dev) (world e))).
    + eexists _, _. split; [reflexivity|]. exists []. cbn. rewrite app_nil_r.
      reflexivity.
    + eexists _, _. split; [reflexivity|]. eexists. reflexivity.
Qed.

Lemma scan_loop_total devices count (e : Env W) :
  exists count' e', scan_loop devices count e = (inr count', e') /\
    exists printed, stdout e' = stdout e ++ printed.
Proof.
  revert count e. induction devices as [|dev rest IH]; intros count e.
  - eexists _, _. split; [reflexivity|]. exists []. rewrite app_nil_r. reflexivity.
  - cbn [scan_loop]. unfold bind.
    destruct (scan_device_total dev count e) as (c1 & e1 & -> & p1 & Hp1).
    destruct (IH c1 e1) as (c2 & e2 & -> & p2 & Hp2).
    eexists _, _. split; [reflexivity|]. exists (p1 ++ p2).
    rewrite Hp2, Hp1, app_assoc. reflexivity.
Qed.

(** A device without a product string index is listed, as ["Unknown"],
    whatever happens with the other devices. *)
Lemma scan_loop_lists_unknown devices count (e : Env W) dev :
  In dev devices -> iProduct dev = 0 ->
  In (row_of dev "Unknown") (stdout (snd (scan_loop devices count e))).
Proof.
  revert count e. induction devices as [|d rest IH]; intros count e Hin H0.
  - destruct Hin.
  - cbn [scan_loop]. unfold bind.
    destruct Hin as [->|Hin].
    + rewrite scan_device_cases, H0. cbn [Z.eqb].
      destruct (scan_loop_total rest (count + 1)
                  (snd (print (row_of dev "Unknown") e)))
        as (c2 & e2 & -> & p2 & Hp2).
      cbn [snd]. rewrite Hp2. apply in_or_app. left.
      cbn. apply in_or_app. right. left. reflexivity.
    + destruct (scan_device_total d count e) as (c1 & e1 & -> & _).
      apply IH; assumption.
Qed.

(** C9, amended: [scan_devices] never raises.  A device without a product
    string index is listed with the name ["Unknown"], without a read, and
    counted.  The product string of any other device is read: when the
    read succeeds the device is listed with the string read and counted;
    when the read raises, the error is swallowed, the device gets no row
    and is not counted, and the loop goes on with the devices that remain.
    The listing is the two head lines, what the loop prints for the
    enumerated devices and, when no device was counted, the no-device
    notice; so with no device on the bus the call ends normally with the
    head lines and the notice. *)
Theorem scan_devices_skips_unreadable :
  (forall e : Env W, fst (scan_devices e) = inr tt) /\
  (forall dev rest count (e : Env W) x w,
     iProduct dev <> 0 ->
     usb_get_string dev (iProduct dev) (world e) = (inl x, w) ->
     scan_loop (dev :: rest) count e =
       scan_loop rest count
         (mkEnv w (trace e ++ [EvGetString dev (iProduct dev)])
            (stdout e) (config_file e))) /\
  (forall dev rest count (e : Env W) product w,
     iProduct dev <> 0 ->
     usb_get_string dev (iProduct dev) (world e) = (inr product, w) ->
     scan_loop (dev :: rest) count e =
       scan_loop rest (count + 1)
         (mkEnv w (trace e ++ [EvGetString dev (iProduct dev)])
            (stdout e ++
               [Text (format_row (hex (idVendor dev)) (hex (idProduct dev))
                        product)])
            (config_file e))) /\
  (forall dev rest count (e : Env W),
     iProduct dev = 0 ->
     scan_loop (dev :: rest) count e =
       scan_loop rest (count + 1)
         (mkEnv (world e) (trace e)
            (stdout e ++
               [Text (format_row (hex (idVendor dev)) (hex (idProduct dev))
                        "Unknown")])
            (config_file e))) /\
  (forall count (e : Env W), scan_loop [] count e = (inr count, e)) /\
  (forall e : Env W,
     exists count e',
       scan_loop (enumerate_devices (world e)) 0
         (mkEnv (world e) (trace e ++ [EvFindAll])
            (stdout e ++
               [Text (format_row "VID" "PID" "Product Name");
                Text (str_mul "-" 50)])
            (config_file e))
       = (inr count, e') /\
       scan_devices e =
         (inr tt,
          if count =? 0
          then mkEnv (world e') (trace e')
                 (stdout e' ++
                    [Text "No devices found or permission denied (Try running as Admin)."])
                 (config_file e')
          else e')) /\
  (forall dev (e : Env W),
     In dev (enumerate_devices (world e)) -> iProduct dev = 0 ->
     In (row_of dev "Unknown") (stdout (snd (scan_devices e)))) /\
  (forall e : Env W,
     enumerate_devices (world e) = [] ->
     scan_devices e =
       (inr tt,
        mkEnv (world e) (trace e ++ [EvFindAll])
          (stdout e ++
             [Text (format_row "VID" "PID" "Product Name");
              Text (str_mul "-" 50);
              Text "No devices found or permission denied (Try running as Admin)."])
          (config_file e))).
Proof.
  split; [|split; [|split; [|split; [|split; [|split; [|split]]]]]].
  - intros e. unfold scan_devices. unfold bind at 1 2 3. cbn [print fst snd].
    unfold usb_core_find_all. cbn [world log].
    unfold bind.
    match goal with
    | |- context [scan_loop ?l ?c ?e0] =>
        destruct (scan_loop_total l c e0) as (c1 & e1 & -> & _)
    end.
    destruct (c1 =? 0); reflexivity.
  - intros dev rest count e x w Hi Hget. cbn [scan_loop]. unfold bind.
    rewrite scan_device_cases.
    destruct (Z.eqb_spec (iProduct dev) 0) as [E|_]; [contradiction|].
    cbv zeta. rewrite Hget. reflexivity.
  - intros dev rest count e product w Hi Hget. cbn [scan_loop]. unfold bind.
    rewrite scan_device_cases.
    destruct (Z.eqb_spec (iProduct dev) 0) as [E|_]; [contradiction|].
    cbv zeta. rewrite Hget. reflexivity.
  - intros dev rest count e H0. cbn [scan_loop]. unfold bind.
    rewrite scan_device_cases, H0. reflexivity.
  - reflexivity.
  - intros e.
    match goal with
    | |- context [scan_loop ?l ?c ?e0] =>
        destruct (scan_loop_total l c e0) as (c1 & e1 & Heq & _)
    end.
    exists c1, e1. split; [exact Heq|].
    unfold scan_devices. unfold bind at 1 2 3. cbn [print fst snd].
    unfold usb_core_find_all. cbn [world log]. unfold bind, print, log.
    cbn [world trace stdout config_file].
    rewrite <- !app_assoc. cbn [app].
    rewrite Heq. destruct (c1 =? 0); reflexivity.
  - intros dev e Hin H0. unfold scan_devices. unfold bind at 1 2 3.
    cbn [print fst snd]. unfold usb_core_find_all. cbn [world log].
    unfold bind.
    match goal with
    | |- context [scan_loop ?l ?c ?e0] =>
        pose proof (scan_loop_lists_unknown l c e0 dev Hin H0) as Hrow;
        destruct (scan_loop_total l c e0) as (c1 & e1 & Heq & _)
    end.
    rewrite Heq in Hrow |- *. cbn [snd] in Hrow.
    destruct (c1 =? 0); cbn; [apply in_or_app; left|]; exact Hrow.
  - intros e Hnil. unfold scan_devices, bind, usb_core_find_all, print, log.
    cbn [world trace stdout config_file]. rewrite Hnil.
    cbn [scan_loop]. unfold ret. cbn [Z.eqb world trace stdout config_file].
    rewrite <- !app_assoc. reflexivity.
Qed.

End Scan.

(** C9, as stated, fails: a device whose product string cannot be read gets
    no row at all. *)
Lemma unreadable_device_not_listed :
  ~ unreadable_listed_as_unknown (sim_env no_product_strings) lianli.
Proof.
  unfold unreadable_listed_as_unknown. intros H.
  assert (Hrow : In (row_of lianli "Unknown")
                    (stdout (snd (scan_devices (sim_env no_product_strings))))).
  { apply H.
    - right. left. reflexivity.
    - discriminate.
    - eexists _, _. reflexivity. }
  vm_compute in Hrow.
  repeat (destruct Hrow as [Hrow|Hrow]; [discriminate Hrow|]).
  exact Hrow.
Qed.

Lemma scan_devices_skips_unreadable_witness :
  scan_loop [lianli] 1 (sim_env no_product_strings)
  = (inr 1, mkEnv no_product_strings [EvGetString lianli 2] [] NoFile).
Proof.
  rewrite (proj1 (proj2 scan_devices_skips_unreadable) lianli [] 1
             (sim_env no_product_strings)
             (USBError "Access denied (insufficient permissions)")
             no_product_strings).
  - reflexivity.
  - discriminate.
  - reflexivity.
Defined.

(** ** The default template and every [#] of the colour *)

(** C8, as stated, fails: the default footer has 104 hexadecimal digits. *)
Lemma default_footer_is_not_107 : ~ default_template_107.
Proof. intros (_ & H & _). vm_compute in H. discriminate. Qed.

(** C8, amended: the default header is [018500000014030400]; the default
    footer is 104 hexadecimal digits, all zero but for [18] after the first
    26; and without a configuration file [manual_set_color] works with
    endpoint 2 and these two strings. *)
Theorem default_packet_template :
  DEFAULT_PACKET_HEADER = "018500000014030400" /\
  String.length DEFAULT_PACKET_FOOTER = 104%nat /\
  DEFAULT_PACKET_FOOTER = str_mul "0" 26 +:+ "180000" +:+ str_mul "0" 72 /\
  (forall W (host : Host W) args (e : Env W) vid pid,
     config_file e = NoFile ->
     arg_vid args = Some vid -> arg_pid args = Some pid ->
     vid <> "" -> pid <> "" ->
     manual_set_color args e =
       (print (Connecting (PStr vid) (PStr pid));;
        send_and_save (PStr vid) (PStr pid) (PInt 2) (arg_color args)
          (PStr DEFAULT_PACKET_HEADER) (PStr DEFAULT_PACKET_FOOTER)) e).
Proof.
  split; [reflexivity|]. split; [reflexivity|]. split; [reflexivity|].
  intros W host args e vid pid Hfile Hvid Hpid Hv Hp.
  unfold manual_set_color. unfold bind at 1. unfold load_config.
  rewrite Hfile, Hvid, Hpid. cbn [ret arg_value truthy].
  destruct vid as [|a vid]; [contradiction Hv; reflexivity|].
  destruct pid as [|b pid]; [contradiction Hp; reflexivity|].
  reflexivity.
Qed.

Lemma default_packet_template_witness :
  manual_set_color (mkArgs "FF0000" (Some "0416") (Some "7399"))
    (sim_env steady_bus) =
  (print (Connecting (PStr "0416") (PStr "7399"));;
   send_and_save (PStr "0416") (PStr "7399") (PInt 2) "FF0000"
     (PStr DEFAULT_PACKET_HEADER) (PStr DEFAULT_PACKET_FOOTER))
    (sim_env steady_bus).
Proof.
  apply (proj2 (proj2 (proj2 default_packet_template)) SimWorld sim_host
           (mkArgs "FF0000" (Some "0416") (Some "7399")) (sim_env steady_bus)
           "0416" "7399");
    try reflexivity; discriminate.
Defined.

(** C10: every [#] of the colour is dropped, wherever it stands. *)
Theorem buildPayload_drops_every_hash :
  (forall header hex_color footer,
     buildPayload header hex_color footer
     = buildPayload header (without_char "#" hex_color) footer) /\
  (forall W (host : Host W) hex_color header footer
          (st : RGBDevice * Env W),
     send_color_packet hex_color header footer st
     = send_color_packet (without_char "#" hex_color) header footer st) /\
  buildPayload "0185" "ff#00#00" "18" = buildPayload "0185" "ff0000" "18".
Proof.
  assert (H : forall header hex_color footer,
     buildPayload header hex_color footer
     = buildPayload header (without_char "#" hex_color) footer).
  { intros header c footer. unfold buildPayload, full_payload.
    rewrite !normalize_color_without_hash, without_char_idem. reflexivity. }
  split; [exact H|]. split; [|reflexivity].
  intros W host c header footer st. unfold send_color_packet.
  destruct header; try reflexivity. destruct footer; try reflexivity.
  rewrite <- H. reflexivity.
Qed.

(** ** The program on the scripted bus *)

Lemma send_color_packet_one_retry_witness :
  exists e',
    send_color_packet "ff0000" (PStr "0185") (PStr "18")
      (lianli_object, sim_env twin_first_bus)
    = (inr true,
       (mkRGBDevice (PInt 1046) (PInt 29593) (PInt 2) (Some lianli_twin), e')) /\
    trace e' =
      [EvWrite lianli (PInt 2) [1; 133; 255; 0; 0; 24];
       EvFind (PInt 1046) (PInt 29593);
       EvSetConfiguration lianli_twin;
       EvWrite lianli_twin (PInt 2) [1; 133; 255; 0; 0; 24]].
Proof.
  pose proof (send_color_packet_one_retry "0185" "ff0000" "18"
                [1; 133; 255; 0; 0; 24] lianli_object (sim_env twin_first_bus)
                lianli "Operation timed out") as H.
  destruct H
    as (ok & self' & e' & rest & Heq & Htrace & Hvid & Hpid & Hep & _ & Hcase);
    [reflexivity..|].
  cbn in Hcase. destruct Hcase as (Hdev & Hrest & Hok & _).
  exists e'. rewrite Heq, Htrace, Hrest.
  destruct self' as [sv sp se sd]. cbn in Hvid, Hpid, Hep, Hdev. subst.
  rewrite (proj2 Hok eq_refl). split; reflexivity.
Defined.

Lemma send_color_packet_invalid_before_io_witness :
  send_color_packet "GG0000" (PStr "0185") (PStr "18")
    (lianli_object, sim_env steady_bus)
  = (inl InvalidPayload, (lianli_object, sim_env steady_bus)).
Proof.
  apply (send_color_packet_invalid_before_io "0185" "GG0000" "18").
  reflexivity.
Defined.

Lemma save_iff_send_succeeds_witness :
  exists d,
    config_file
      (snd (send_and_save (PStr "0416") (PStr "7399") (PInt 2) "FF0000"
              (PStr DEFAULT_PACKET_HEADER) (PStr DEFAULT_PACKET_FOOTER)
              (sim_env flaky_bus)))
    = Parsed (CDict d) /\
    d !! "vid" = Some (PStr "0416") /\ d !! "pid" = Some (PStr "7399") /\
    d !! "endpoint" = Some (PInt 2) /\
    d !! "packet_header" = Some (PStr DEFAULT_PACKET_HEADER) /\
    d !! "packet_footer" = Some (PStr DEFAULT_PACKET_FOOTER).
Proof.
  destruct (proj1 save_iff_send_succeeds
              (PStr "0416") (PStr "7399") (PInt 2) "FF0000"
              (PStr DEFAULT_PACKET_HEADER) (PStr DEFAULT_PACKET_FOOTER)
              (sim_env flaky_bus))
    as (d & Hfile & Hvid & Hpid & Hep & Hhead & Hfoot & _).
  - vm_compute. reflexivity.
  - exists d. repeat split; assumption.
Defined.

(** The end-to-end scenarios of the specification. *)

Example scenario_first_run :
  let r := manual_set_color (mkArgs "FF0000" (Some "0416") (Some "7399"))
             (sim_env steady_bus) in
  fst r = inr tt /\
  List.filter is_write (trace (snd r)) =
    match fromhex (DEFAULT_PACKET_HEADER +:+ "ff0000" +:+ DEFAULT_PACKET_FOOTER) with
    | Some data => [EvWrite lianli (PInt 2) data]
    | None => []
    end /\
  config_file (snd r) =
    Parsed (CDict (config_data (PStr "0416") (PStr "7399") (PInt 2)
                     (PStr DEFAULT_PACKET_HEADER) (PStr DEFAULT_PACKET_FOOTER))).
Proof. vm_compute. repeat split. Qed.

Example scenario_unplugged :
  let r := manual_set_color (mkArgs "FF0000" (Some "0416") (Some "7399"))
             (sim_env unplugging_bus) in
  fst r = inr tt /\ config_file (snd r) = NoFile /\
  last (stdout (snd r)) = Some (Text "Device found, but failed to send packet.").
Proof. vm_compute. repeat split. Qed.

Example scenario_saved_configuration :
  let r := manual_set_color (mkArgs "00FF00" None None)
             (mkEnv steady_bus [] [] saved_file) in
  fst r = inr tt /\
  List.filter is_write (trace (snd r)) =
    match fromhex (DEFAULT_PACKET_HEADER +:+ "00ff00" +:+ DEFAULT_PACKET_FOOTER) with
    | Some data => [EvWrite lianli (PInt 2) data]
    | None => []
    end /\
  config_file (snd r) = saved_file.
Proof. vm_compute. repeat split. Qed.

Example scenario_retry_succeeds :
  let r := manual_set_color (mkArgs "FF0000" (Some "0416") (Some "7399"))
             (sim_env flaky_bus) in
  fst r = inr tt /\
  List.length (List.filter is_write (trace (snd r))) = 2%nat /\
  config_file (snd r) = saved_file.
Proof. vm_compute. repeat split. Qed.

(** * Further properties *)

(** ** More on the payload *)

Lemma lower_app (s t : string) : lower (s +:+ t) = lower s +:+ lower t.
Proof.
  induction s as [|c s IH]; [reflexivity|].
  rewrite app_cons. cbn [lower]. rewrite IH. reflexivity.
Qed.

Lemma lower_char_idem c : lower_char (lower_char c) = lower_char c.
Proof. by_ascii_cases c. Qed.

Lemma lower_idem s : lower (lower s) = lower s.
Proof.
  induction s as [|c s IH]; [reflexivity|].
  cbn [lower]. rewrite lower_char_idem, IH. reflexivity.
Qed.

Lemma lower_char_not_capital c :
  (65 <=? ord (lower_char c)) && (ord (lower_char c) <=? 90) = false.
Proof. by_ascii_cases c. Qed.

Lemma lower_char_hash c :
  Ascii.eqb (lower_char c) "#" = Ascii.eqb c "#".
Proof. by_ascii_cases c. Qed.

Lemma lacks_without x s : lacks x (without_char x s) = true.
Proof.
  induction s as [|c s IH]; [reflexivity|].
  cbn [without_char]. destruct (Ascii.eqb c x) eqn:E; [exact IH|].
  cbn [lacks]. rewrite E, IH. reflexivity.
Qed.

Lemma lacks_hash_lower s : lacks "#" (lower s) = lacks "#" s.
Proof.
  induction s as [|c s IH]; [reflexivity|].
  cbn [lower lacks]. rewrite lower_char_hash, IH. reflexivity.
Qed.

Lemma without_char_lacks x s : lacks x s = true -> without_char x s = s.
Proof.
  induction s as [|c s IH]; [reflexivity|].
  cbn [lacks without_char]. intros [Hc Hs]%andb_prop.
  apply negb_true_iff in Hc. rewrite Hc, (IH Hs). reflexivity.
Qed.

Lemma no_capital_lower s : no_capital (lower s) = true.
Proof.
  induction s as [|c s IH]; [reflexivity|].
  cbn [lower no_capital]. rewrite lower_char_not_capital, IH. reflexivity.
Qed.

(** X4: the colour as the packet takes it has no [#] and no capital, and
    normalising it again changes nothing. *)
Theorem normalize_color_idempotent hex_color :
  lacks "#" (normalize_color hex_color) = true /\
  no_capital (normalize_color hex_color) = true /\
  normalize_color (normalize_color hex_color) = normalize_color hex_color.
Proof.
  rewrite !normalize_color_without_hash.
  assert (H : lacks "#" (lower (without_char "#" hex_color)) = true).
  { rewrite lacks_hash_lower. apply lacks_without. }
  split; [exact H|]. split; [apply no_capital_lower|].
  rewrite (without_char_lacks _ _ H). apply lower_idem.
Qed.

(** Decoding a string that starts with whole bytes: the bytes of the start,
    then those of the rest. *)
Lemma fromhex_app (a b : string) :
  all_hex a = true -> Nat.even (String.length a) = true ->
  exists bs, fromhex a = Some bs /\
    List.length bs = Nat.div (String.length a) 2 /\
    fromhex (a +:+ b) =
      match fromhex b with
      | Some rest => Some (bs ++ rest)
      | None => None
      end.
Proof.
  induction a as [|c|c d a IH _] using string_ind2; intros Hh He.
  - exists []. split; [reflexivity|]. split; [reflexivity|].
    rewrite app_nil_l. destruct (fromhex b); reflexivity.
  - discriminate.
  - cbn [all_hex] in Hh. apply andb_prop in Hh as [Hc Hh].
    apply andb_prop in Hh as [Hd Hh].
    change (Nat.even (String.length (String c (String d a))))
      with (Nat.even (String.length a)) in He.
    destruct (IH Hh He) as (bs & Hbs & Hlen & Happ).
    rewrite !app_cons, (fromhex_cons c (String d a)),
      (fromhex_cons c (String d (a +:+ b))).
    destruct (Py_ISSPACE c) eqn:Hs; [apply space_not_hex in Hs; congruence|].
    rewrite Hc, Hd, Hbs, Happ.
    eexists. split; [reflexivity|]. split.
    + cbn [List.length String.length]. rewrite Hlen.
      change (S (S (String.length a))) with (2 + String.length a)%nat.
      replace (2 + String.length a)%nat with (String.length a + 1 * 2)%nat by lia.
      rewrite Nat.div_add by lia. lia.
    + destruct (fromhex b); reflexivity.
Qed.

(** X1: with a header and a colour of whole bytes, the payload is the bytes
    of the header, then those of the colour, then those of the footer, and
    it is refused exactly when the footer alone is. *)
Theorem buildPayload_layout header hex_color footer :
  all_hex header = true -> Nat.even (String.length header) = true ->
  all_hex hex_color = true -> Nat.even (String.length hex_color) = true ->
  exists header_bytes color_bytes,
    fromhex header = Some header_bytes /\
    fromhex hex_color = Some color_bytes /\
    List.length header_bytes = Nat.div (String.length header) 2 /\
    List.length color_bytes = Nat.div (String.length hex_color) 2 /\
    buildPayload header hex_color footer =
      match fromhex footer with
      | Some footer_bytes => inr (header_bytes ++ color_bytes ++ footer_bytes)
      | None => inl InvalidPayload
      end.
Proof.
  intros Hh Hhe Hc Hce.
  assert (Hn : normalize_color hex_color = lower hex_color).
  { rewrite normalize_color_without_hash, without_hash_all_hex by exact Hc.
    reflexivity. }
  assert (Hlc : all_hex (lower hex_color) = true) by (rewrite all_hex_lower; exact Hc).
  assert (Hle : Nat.even (String.length (lower hex_color)) = true)
    by (rewrite length_lower; exact Hce).
  destruct (fromhex_app (lower hex_color) footer Hlc Hle)
    as (cb & Hcb & Hcl & Hcapp).
  destruct (fromhex_app header (lower hex_color +:+ footer) Hh Hhe)
    as (hb & Hhb & Hhl & Hhapp).
  exists hb, cb. rewrite fromhex_lower in Hcb. rewrite length_lower in Hcl.
  split; [exact Hhb|]. split; [exact Hcb|]. split; [exact Hhl|].
  split; [exact Hcl|].
  unfold buildPayload, full_payload. rewrite Hn.
  assert (Hassoc : (header +:+ lower hex_color) +:+ footer
                   = header +:+ (lower hex_color +:+ footer)).
  { clear. induction header as [|c s IH]; [reflexivity|].
    rewrite !app_cons, IH. reflexivity. }
  rewrite Hassoc, Hhapp, Hcapp. destruct (fromhex footer); reflexivity.
Qed.

Lemma buildPayload_layout_witness :
  exists header_bytes color_bytes,
    fromhex DEFAULT_PACKET_HEADER = Some header_bytes /\
    fromhex "FF8000" = Some color_bytes /\
    List.length header_bytes = 9%nat /\
    List.length color_bytes = 3%nat /\
    buildPayload DEFAULT_PACKET_HEADER "FF8000" DEFAULT_PACKET_FOOTER =
      match fromhex DEFAULT_PACKET_FOOTER with
      | Some footer_bytes => inr (header_bytes ++ color_bytes ++ footer_bytes)
      | None => inl InvalidPayload
      end.
Proof.
  apply (buildPayload_layout DEFAULT_PACKET_HEADER "FF8000" DEFAULT_PACKET_FOOTER);
    reflexivity.
Defined.

(** X2: the case of the letters of the header and of the footer does not
    change the payload either. *)
Theorem buildPayload_template_case h1 h2 hex_color f1 f2 :
  same_ignoring_case h1 h2 = true -> same_ignoring_case f1 f2 = true ->
  buildPayload h1 hex_color f1 = buildPayload h2 hex_color f2.
Proof.
  intros Hh Hf. unfold buildPayload, full_payload.
  rewrite <- (fromhex_lower ((h1 +:+ _) +:+ f1)),
          <- (fromhex_lower ((h2 +:+ _) +:+ f2)).
  rewrite !lower_app.
  rewrite (same_ignoring_case_lower h1 h2 Hh), (same_ignoring_case_lower f1 f2 Hf).
  reflexivity.
Qed.

Lemma buildPayload_template_case_witness :
  buildPayload "01AB" "ff0000" "C0" = buildPayload "01ab" "ff0000" "c0".
Proof. apply buildPayload_template_case; reflexivity. Defined.

(** X3: what [buildPayload] returns is a sequence of bytes. *)
Theorem buildPayload_bytes header hex_color footer packet_data :
  buildPayload header hex_color footer = inr packet_data ->
  Forall (fun b => 0 <= b < 256) packet_data.
Proof.
  unfold buildPayload.
  destruct (fromhex (full_payload header hex_color footer)) as [bs|] eqn:E;
    [|discriminate].
  intros [= <-]. apply (fromhex_bytes _ _ E).
Qed.

Lemma buildPayload_bytes_witness :
  Forall (fun b => 0 <= b < 256) [1; 133; 255; 0; 0; 24].
Proof. apply (buildPayload_bytes "0185" "#FF0000" "18"). reflexivity. Defined.

(** ** The constructor *)

Section Construct.
Context {W : Type} {host : Host W}.

Lemma RGBDevice_init_cases vid pid endpoint (e : Env W) :
  RGBDevice_init vid pid endpoint e =
  match to_id vid with
  | inl x => (inl x, e)
  | inr v =>
      match to_id pid with
      | inl x => (inl x, e)
      | inr p =>
          match connect (mkRGBDevice v p endpoint None, e) with
          | (inr _, (self, e')) => (inr self, e')
          | (inl x, (_, e')) => (inl x, e')
          end
      end
  end.
Proof.
  unfold RGBDevice_init, bind, lift_result.
  destruct (to_id vid); [reflexivity|]. cbn [ret].
  destruct (to_id pid); reflexivity.
Qed.

(** X5: an object that [RGBDevice(vid, pid, endpoint)] returns holds the
    converted ids and the endpoint, and a handle to an enumerated device
    with these ids, on which [set_configuration] has succeeded; the
    constructor made these two transfers and no other, and printed
    nothing. *)
Theorem RGBDevice_init_holds_claimed_device vid pid endpoint
    (e e' : Env W) self :
  RGBDevice_init vid pid endpoint e = (inr self, e') ->
  to_id vid = inr (self_vid self) /\
  to_id pid = inr (self_pid self) /\
  self_endpoint self = endpoint /\
  exists d,
    self_dev self = Some d /\
    In d (enumerate_devices (world e)) /\
    matches (self_vid self) (self_pid self) d = true /\
    usb_set_configuration d (world e) = (inr tt, world e') /\
    trace e' =
      trace e ++ [EvFind (self_vid self) (self_pid self); EvSetConfiguration d] /\
    stdout e' = stdout e /\ config_file e' = config_file e.
Proof.
  rewrite RGBDevice_init_cases.
  destruct (to_id vid) as [x|v]; [discriminate|].
  destruct (to_id pid) as [x|p]; [discriminate|].
  rewrite connect_cases. cbn [self_vid self_pid world]. cbv zeta.
  destruct (List.find (matches v p) (enumerate_devices (world e)))
    as [d|] eqn:Hfind.
  - destruct (usb_set_configuration d (world e)) as [[x|[]] w] eqn:Hsc;
      cbn [fst snd]; [discriminate|].
    intros [= <- <-]. cbn.
    split; [reflexivity|]. split; [reflexivity|]. split; [reflexivity|].
    exists d. apply find_some in Hfind as [Hin Hm].
    split; [reflexivity|]. split; [exact Hin|]. split; [exact Hm|].
    split; [exact Hsc|]. split; [|split; reflexivity].
    rewrite <- app_assoc. reflexivity.
  - destruct (py_hex v); [discriminate|]. destruct (py_hex p); discriminate.
Qed.

(** X6: an id string that [int(_, 16)] refuses makes the constructor raise
    [ValueError] with the bus untouched; [manual_set_color] prints that
    error, leaves the file alone and ends normally. *)
Theorem bad_id_string_before_io s other endpoint color header footer
    (e : Env W) :
  int16 s = None ->
  let err := ValueError "invalid literal for int() with base 16" in
  RGBDevice_init (PStr s) other endpoint e = (inl err, e) /\
  (forall v, to_id other = inr v ->
             RGBDevice_init other (PStr s) endpoint e = (inl err, e)) /\
  send_and_save (PStr s) other endpoint color header footer e
  = (inr tt, snd (print (ErrorLine err) e)).
Proof.
  intros Hs err.
  assert (H1 : RGBDevice_init (PStr s) other endpoint e = (inl err, e)).
  { rewrite RGBDevice_init_cases. cbn [to_id]. rewrite Hs. reflexivity. }
  split; [exact H1|]. split.
  - intros v Hv. rewrite RGBDevice_init_cases, Hv. cbn [to_id]. rewrite Hs.
    reflexivity.
  - unfold send_and_save, try_except, bind, locate_and_send, bind.
    rewrite H1. reflexivity.
Qed.

(** X7: when no enumerated device has the pair of ids, [manual_set_color]
    makes the one search, prints the not-found error and ends normally; it
    writes nothing to a device and leaves the file alone. *)
Theorem device_not_found_reported vid pid (v p : Z) endpoint color
    header footer (e : Env W) :
  to_id vid = inr (PInt v) -> to_id pid = inr (PInt p) ->
  (forall d, In d (enumerate_devices (world e)) ->
             ~ (idVendor d = v /\ idProduct d = p)) ->
  send_and_save vid pid endpoint color header footer e
  = (inr tt,
     mkEnv (world e) (trace e ++ [EvFind (PInt v) (PInt p)])
       (stdout e ++ [ErrorLine (DeviceNotFound v p)]) (config_file e)).
Proof.
  intros Hv Hp Hnone.
  unfold send_and_save, try_except, bind, locate_and_send, bind.
  rewrite RGBDevice_init_cases, Hv, Hp, connect_cases.
  cbn [self_vid self_pid world]. cbv zeta.
  rewrite find_none.
  2:{ intros d Hd. apply matches_int_false, Hnone, Hd. }
  reflexivity.
Qed.

(** X8: when [set_configuration] on the device found raises,
    [manual_set_color] prints that very error and ends normally, with no
    second attempt, no write and the file left alone. *)
Theorem claim_failure_reported vid pid v p endpoint color header footer
    (e : Env W) d x w :
  to_id vid = inr v -> to_id pid = inr p ->
  List.find (matches v p) (enumerate_devices (world e)) = Some d ->
  usb_set_configuration d (world e) = (inl x, w) ->
  send_and_save vid pid endpoint color header footer e
  = (inr tt,
     mkEnv w (trace e ++ [EvFind v p; EvSetConfiguration d])
       (stdout e ++ [ErrorLine x]) (config_file e)).
Proof.
  intros Hv Hp Hfind Hsc.
  unfold send_and_save, try_except, bind, locate_and_send, bind.
  rewrite RGBDevice_init_cases, Hv, Hp, connect_cases.
  cbn [self_vid self_pid world]. cbv zeta. rewrite Hfind, Hsc. cbn.
  unfold print, set_world, log. cbn [world trace stdout config_file].
  rewrite <- app_assoc. reflexivity.
Qed.

(** X9: with a colour that does not decode, [manual_set_color] still finds
    and claims the device, then prints [InvalidPayload] and ends normally:
    nothing is written to the device and the file is left alone. *)
Theorem invalid_color_claims_but_never_writes vid pid endpoint color
    header footer (e e1 : Env W) device :
  RGBDevice_init vid pid endpoint e = (inr device, e1) ->
  fromhex (full_payload header color footer) = None ->
  send_and_save vid pid endpoint color (PStr header) (PStr footer) e
  = (inr tt, snd (print (ErrorLine InvalidPayload) e1)) /\
  List.filter is_write (trace e1) = List.filter is_write (trace e) /\
  config_file e1 = config_file e.
Proof.
  intros Hinit Hbad. split.
  - unfold send_and_save, try_except, bind, locate_and_send, bind.
    rewrite Hinit. unfold call.
    unfold send_color_packet, bind, lift_result, buildPayload.
    rewrite Hbad. reflexivity.
  - revert Hinit. rewrite RGBDevice_init_cases.
    destruct (to_id vid) as [x|v]; [discriminate|].
    destruct (to_id pid) as [x|p]; [discriminate|].
    rewrite connect_cases. cbv zeta.
    destruct (List.find _ _) as [d|].
    + destruct (fst (usb_set_configuration d (world e))); [discriminate|].
      intros [= _ <-]. cbn. rewrite <- app_assoc, List.filter_app. cbn.
      rewrite app_nil_r. split; reflexivity.
    + cbn [self_vid self_pid].
      destruct (py_hex v); [discriminate|]. destruct (py_hex p); discriminate.
Qed.

End Construct.

(** ** More on sending *)

Section SendMore.
Context {W : Type} {host : Host W}.

(** X10: a first write that succeeds ends the call with [True] after that
    one transfer; a first write that raises anything but a [USBError] is
    not retried: the exception leaves [send_color_packet] as it is. *)
Theorem first_write_outcomes header color footer data
    (self : RGBDevice) (e : Env W) d :
  buildPayload header color footer = inr data ->
  self_dev self = Some d ->
  (fst (usb_write d (self_endpoint self) data (world e)) = inr tt ->
   send_color_packet color (PStr header) (PStr footer) (self, e)
   = (inr true, (self, after_write d (self_endpoint self) data e))) /\
  (forall x,
     fst (usb_write d (self_endpoint self) data (world e)) = inl x ->
     is_USBError x = false ->
     send_color_packet color (PStr header) (PStr footer) (self, e)
     = (inl x, (self, after_write d (self_endpoint self) data e))).
Proof.
  intros Hdata Hd. split.
  - intros Hok.
    rewrite (send_color_packet_cases header color footer data self e d Hdata Hd).
    rewrite Hok. reflexivity.
  - intros x Hx Hnot.
    rewrite (send_color_packet_cases header color footer data self e d Hdata Hd).
    rewrite Hx. destruct x; try reflexivity. discriminate Hnot.
Qed.

(** [send_color_packet] on an object without a handle. *)
Lemma send_without_handle header color footer data (self : RGBDevice)
    (e : Env W) :
  buildPayload header color footer = inr data ->
  self_dev self = None ->
  send_color_packet color (PStr header) (PStr footer) (self, e)
  = (inr false, (self, e)).
Proof.
  intros Hdata Hd. unfold send_color_packet. rewrite Hdata.
  unfold bind, lift_result, ret, try_except, get_self. cbn. rewrite Hd.
  reflexivity.
Qed.

(** X11: when the device is gone by the time of the reconnection, the call
    returns [False] and the object is left without a handle; every later
    [send_color_packet] on it returns [False] without a transfer. *)
Theorem lost_device_stays_lost header color footer data
    (self : RGBDevice) (e : Env W) d msg :
  buildPayload header color footer = inr data ->
  self_dev self = Some d ->
  fst (usb_write d (self_endpoint self) data (world e)) = inl (USBError msg) ->
  List.find (matches (self_vid self) (self_pid self))
    (enumerate_devices (snd (usb_write d (self_endpoint self) data (world e))))
    = None ->
  exists e',
    send_color_packet color (PStr header) (PStr footer) (self, e)
      = (inr false, (set_dev None self, e')) /\
    trace e' =
      trace e ++ [EvWrite d (self_endpoint self) data;
                  EvFind (self_vid self) (self_pid self)] /\
    forall color2 data2 (e2 : Env W),
      buildPayload header color2 footer = inr data2 ->
      send_color_packet color2 (PStr header) (PStr footer)
        (set_dev None self, e2)
      = (inr false, (set_dev None self, e2)).
Proof.
  intros Hdata Hd Hw Hfind.
  rewrite (send_color_packet_cases header color footer data self e d Hdata Hd).
  rewrite Hw. cbv zeta. rewrite connect_cases. cbv zeta.
  change (world (after_write d (self_endpoint self) data e))
    with (snd (usb_write d (self_endpoint self) data (world e))).
  rewrite Hfind.
  assert (Hraise : exists x,
    match py_hex (self_vid self), py_hex (self_pid self) with
    | inr hv, inr hp => inl (ValueError (DeviceNotFound_msg hv hp))
    | inl x, _ => inl x
    | inr _, inl x => inl x
    end = (inl x : exn + unit)).
  { destruct (py_hex (self_vid self)); [eauto|].
    destruct (py_hex (self_pid self)); eauto. }
  destruct Hraise as [x ->].
  eexists. split; [reflexivity|]. split.
  - cbn. rewrite <- app_assoc. reflexivity.
  - intros color2 data2 e2 Hdata2.
    apply (send_without_handle header color2 footer data2); [exact Hdata2|].
    reflexivity.
Qed.


End SendMore.

(** ** The configuration file and the command *)

Section Command.
Context {W : Type} {host : Host W}.

Lemma load_config_dict (e : Env W) d :
  loaded_dict (config_file e) = Some d ->
  fst (load_config e) = inr (CDict d) /\
  world (snd (load_config e)) = world e /\
  trace (snd (load_config e)) = trace e /\
  config_file (snd (load_config e)) = config_file e /\
  exists warning, stdout (snd (load_config e)) = stdout e ++ warning.
Proof.
  unfold load_config, loaded_dict.
  destruct (config_file e) as [| |[d'|]|x] eqn:E; intros [= <-]; cbn;
    rewrite ?E; repeat split; try reflexivity.
  - exists []. rewrite app_nil_r. reflexivity.
  - eexists. reflexivity.
  - exists []. rewrite app_nil_r. reflexivity.
Qed.

(** [manual_set_color] after [load_config] has given the dictionary [d]. *)
Lemma manual_set_color_resolved args (e : Env W) d :
  fst (load_config e) = inr (CDict d) ->
  manual_set_color args e =
  let e0 := snd (load_config e) in
  let vid := chosen (arg_vid args) d "vid" in
  let pid := chosen (arg_pid args) d "pid" in
  if negb (truthy vid) || negb (truthy pid)
  then (inr tt,
        mkEnv (world e0) (trace e0) (stdout e0 ++ usage_lines) (config_file e0))
  else
    (print (Connecting vid pid);;
     send_and_save vid pid
       (from_option id (PInt 2) (d !! "endpoint")) (arg_color args)
       (from_option id (PStr DEFAULT_PACKET_HEADER) (d !! "packet_header"))
       (from_option id (PStr DEFAULT_PACKET_FOOTER) (d !! "packet_footer"))) e0.
Proof.
  intros Hload. unfold manual_set_color. unfold bind at 1.
  destruct (load_config e) as [r e0]. cbn [fst snd] in *. subst r.
  cbv zeta. unfold chosen. cbn [dict_get].
  destruct (truthy (arg_value (arg_vid args))) eqn:Ev;
    destruct (truthy (arg_value (arg_pid args))) eqn:Ep;
    unfold bind at 1; cbn [ret]; unfold bind at 1; cbn [ret];
    match goal with
    | |- context [negb (truthy ?v) || negb (truthy ?p)] =>
        destruct (negb (truthy v) || negb (truthy p))
    end;
    try reflexivity;
    unfold bind, print, usage_lines; cbn [world trace stdout config_file];
    rewrite <- !app_assoc; reflexivity.
Qed.

Lemma send_and_save_returns vid pid endpoint color header footer (e : Env W) :
  fst (send_and_save vid pid endpoint color header footer e) = inr tt.
Proof.
  unfold send_and_save, try_except, bind.
  destruct (locate_and_send vid pid endpoint color header footer e)
    as [[x|[]] e1]; reflexivity.
Qed.

(** X13: when an id is missing, given neither on the command line nor by
    the configuration, or given empty, [manual_set_color] prints the usage
    and ends normally: no transfer, and the bus and the file stay as they
    were. *)
Theorem missing_ids_touch_nothing args (e : Env W) d :
  loaded_dict (config_file e) = Some d ->
  truthy (chosen (arg_vid args) d "vid") = false \/
  truthy (chosen (arg_pid args) d "pid") = false ->
  exists e',
    manual_set_color args e = (inr tt, e') /\
    world e' = world e /\ trace e' = trace e /\
    config_file e' = config_file e /\
    stdout e' = stdout (snd (load_config e)) ++ usage_lines.
Proof.
  intros Hd Hmiss.
  destruct (load_config_dict e d Hd) as (Hload & Hw & Ht & Hf & _).
  rewrite (manual_set_color_resolved args e d Hload). cbv zeta.
  assert (Hcond : negb (truthy (chosen (arg_vid args) d "vid"))
                  || negb (truthy (chosen (arg_pid args) d "pid")) = true).
  { destruct Hmiss as [-> | ->]; [reflexivity|apply orb_true_r]. }
  rewrite Hcond. eexists. split; [reflexivity|]. cbn.
  repeat split; assumption.
Qed.

(** X14: when there is no file, when [json.load] raises
    [json.JSONDecodeError] on it, or when it holds a JSON object,
    [manual_set_color] ends normally: every exception of the device part
    is caught and printed.  When [open] or [json.load] raises another
    exception, [load_config] does not catch it and [manual_set_color]
    raises it, before anything is printed or transferred. *)
Theorem manual_set_color_never_raises args (e : Env W) :
  (config_file e = NoFile \/ config_file e = Unparsable \/
   (exists d, config_file e = Parsed (CDict d)) ->
   fst (manual_set_color args e) = inr tt) /\
  (forall x, config_file e = Unreadable x ->
     manual_set_color args e = (inl x, e)).
Proof.
  split.
  - intros Hfile.
    assert (Hd : exists d, loaded_dict (config_file e) = Some d).
    { destruct Hfile as [-> | [-> | [d ->]]]; eexists; reflexivity. }
    destruct Hd as [d Hd].
    destruct (load_config_dict e d Hd) as (Hload & _).
    rewrite (manual_set_color_resolved args e d Hload). cbv zeta.
    destruct (negb _ || negb _); [reflexivity|].
    unfold bind at 1. cbn [print]. apply send_and_save_returns.
  - intros x Hx. unfold manual_set_color. unfold bind at 1.
    unfold load_config. rewrite Hx. reflexivity.
Qed.

(** X15: a file whose JSON is not an object makes [manual_set_color] raise
    [AttributeError], uncaught, before anything is printed or
    transferred. *)
Theorem non_object_config_raises args (e : Env W) :
  config_file e = Parsed COther ->
  manual_set_color args e
  = (inl (AttributeError "object has no attribute 'get'"), e).
Proof.
  intros Hf. unfold manual_set_color. unfold bind at 1. unfold load_config.
  rewrite Hf. cbn [ret dict_get].
  destruct (truthy (arg_value (arg_vid args))) eqn:Ev;
    destruct (truthy (arg_value (arg_pid args))) eqn:Ep;
    cbn; rewrite ?Ev, ?Ep; reflexivity.
Qed.

(** X16: what [save_config] writes, [load_config] reads back: the five
    values under their keys and no other key; saving touches neither the
    bus nor the trace. *)
Theorem save_then_load vid pid endpoint header footer (e : Env W) :
  exists d e',
    snd (save_config vid pid endpoint header footer e) = e' /\
    load_config e' = (inr (CDict d), e') /\
    d !! "vid" = Some vid /\ d !! "pid" = Some pid /\
    d !! "endpoint" = Some endpoint /\
    d !! "packet_header" = Some header /\
    d !! "packet_footer" = Some footer /\
    (forall key, d !! key <> None ->
       In key ["vid"; "pid"; "endpoint"; "packet_header"; "packet_footer"]) /\
    world e' = world e /\ trace e' = trace e.
Proof.
  exists (config_data vid pid endpoint header footer). eexists.
  split; [reflexivity|]. split; [reflexivity|].
  destruct (config_data_lookup vid pid endpoint header footer)
    as (H1 & H2 & H3 & H4 & H5).
  repeat (split; [assumption|]). split; [|split; reflexivity].
  intros key Hkey. unfold config_data in Hkey.
  destruct (decide (key = "packet_footer")) as [->|N1]; [cbn; tauto|].
  destruct (decide (key = "packet_header")) as [->|N2]; [cbn; tauto|].
  destruct (decide (key = "endpoint")) as [->|N3]; [cbn; tauto|].
  destruct (decide (key = "pid")) as [->|N4]; [cbn; tauto|].
  destruct (decide (key = "vid")) as [->|N5]; [cbn; tauto|].
  exfalso. apply Hkey.
  rewrite !lookup_insert_ne by congruence. apply lookup_empty.
Qed.

(** X17: after a run that succeeded, a run without [--vid] and [--pid] works
    with the ids, endpoint, header and footer of that run. *)
Theorem saved_configuration_replays vid pid endpoint header footer
    color1 color2 (e : Env W) :
  truthy vid = true -> truthy pid = true ->
  fst (locate_and_send vid pid endpoint color1 header footer e) = inr true ->
  manual_set_color (mkArgs color2 None None)
    (snd (send_and_save vid pid endpoint color1 header footer e))
  = (print (Connecting vid pid);;
     send_and_save vid pid endpoint color2 header footer)
      (snd (send_and_save vid pid endpoint color1 header footer e)).
Proof.
  intros Hv Hp Hok.
  set (e1 := snd (send_and_save vid pid endpoint color1 header footer e)).
  assert (Hfile : config_file e1
                  = Parsed (CDict (config_data vid pid endpoint header footer))).
  { subst e1. unfold send_and_save, try_except, bind.
    destruct (locate_and_send vid pid endpoint color1 header footer e)
      as [r e0]. cbn in Hok. subst r. reflexivity. }
  assert (Hload : load_config e1
                  = (inr (CDict (config_data vid pid endpoint header footer)), e1)).
  { unfold load_config. rewrite Hfile. reflexivity. }
  rewrite (manual_set_color_resolved _ e1 _ (f_equal fst Hload)).
  rewrite Hload. cbn [snd]. cbv zeta.
  destruct (config_data_lookup vid pid endpoint header footer)
    as (H1 & H2 & H3 & H4 & H5).
  unfold chosen. cbn [arg_vid arg_pid arg_color arg_value truthy].
  rewrite H1, H2, H3, H4, H5. cbn [from_option id].
  rewrite Hv, Hp. reflexivity.
Qed.

End Command.

(** ** More on the listing *)

Section ScanMore.
Context {W : Type} {host : Host W}.

(** What the loop of [scan_devices] has done when it ends: [listed] are
    the devices it printed, with the names it printed, and [reads] the
    transfers it made. *)
Lemma scan_loop_listing devices count (e : Env W) :
  exists (listed : list (Device * string)) reads e',
    scan_loop devices count e
      = (inr (count + Z.of_nat (List.length listed)), e') /\
    stdout e' = stdout e ++ List.map (fun p => row_of (fst p) (snd p)) listed /\
    sublist (List.map fst listed) devices /\
    Forall (fun p => iProduct (fst p) = 0 -> snd p = "Unknown") listed /\
    trace e' = trace e ++ reads /\
    Forall (product_read devices) reads /\
    config_file e' = config_file e.
Proof.
  revert count e. induction devices as [|dev rest IH]; intros count e.
  - exists [], [], e. cbn. rewrite Z.add_0_r, !app_nil_r.
    repeat split; constructor.
  - cbn [scan_loop]. unfold bind. rewrite scan_device_cases.
    assert (Hweak : forall reads,
              Forall (product_read rest) reads ->
              Forall (product_read (dev :: rest)) reads).
    { intros reads Hr. eapply Forall_impl; [exact Hr|].
      intros ev (d & Hin & Hi & ->).
      exists d. split; [right; exact Hin|]. split; [exact Hi|reflexivity]. }
    destruct (Z.eqb_spec (iProduct dev) 0) as [H0|H0].
    + destruct (IH (count + 1) (snd (print (row_of dev "Unknown") e)))
        as (listed & reads & e' & -> & Hout & Hsub & Hunk & Htr & Hrd & Hf).
      exists ((dev, "Unknown") :: listed), reads, e'.
      split; [f_equal; f_equal; cbn [List.length]; lia|].
      split; [rewrite Hout; cbn; rewrite <- app_assoc; reflexivity|].
      split; [cbn; apply sublist_skip; exact Hsub|].
      split; [constructor; [reflexivity|exact Hunk]|].
      split; [exact Htr|]. split; [apply Hweak, Hrd|exact Hf].
    + cbv zeta.
      set (e1 := set_world (snd (usb_get_string dev (iProduct dev) (world e)))
                   (log (EvGetString dev (iProduct dev)) e)).
      assert (Hread : product_read (dev :: rest)
                        (EvGetString dev (iProduct dev))).
      { exists dev. split; [left; reflexivity|]. split; [exact H0|reflexivity]. }
      destruct (fst (usb_get_string dev (iProduct dev) (world e)))
        as [x|product].
      * destruct (IH count e1)
          as (listed & reads & e' & -> & Hout & Hsub & Hunk & Htr & Hrd & Hf).
        exists listed, (EvGetString dev (iProduct dev) :: reads), e'.
        split; [reflexivity|]. split; [exact Hout|].
        split; [apply sublist_cons; exact Hsub|].
        split; [exact Hunk|].
        split; [rewrite Htr; subst e1; cbn; rewrite <- app_assoc; reflexivity|].
        split; [constructor; [exact Hread|apply Hweak, Hrd]|exact Hf].
      * destruct (IH (count + 1) (snd (print (row_of dev product) e1)))
          as (listed & reads & e' & -> & Hout & Hsub & Hunk & Htr & Hrd & Hf).
        exists ((dev, product) :: listed),
               (EvGetString dev (iProduct dev) :: reads), e'.
        split; [f_equal; f_equal; cbn [List.length]; lia|].
        split; [rewrite Hout; subst e1; cbn; rewrite <- app_assoc; reflexivity|].
        split; [cbn; apply sublist_skip; exact Hsub|].
        split; [constructor; [intros Hz; contradiction|exact Hunk]|].
        split; [rewrite Htr; subst e1; cbn; rewrite <- app_assoc; reflexivity|].
        split; [constructor; [exact Hread|apply Hweak, Hrd]|exact Hf].
Qed.

Lemma scan_devices_listing (e : Env W) :
  exists (listed : list (Device * string)) reads e',
    scan_devices e = (inr tt, e') /\
    stdout e' =
      stdout e ++ listing_head
        ++ List.map (fun p => row_of (fst p) (snd p)) listed
        ++ match listed with [] => [no_device_notice] | _ :: _ => [] end /\
    sublist (List.map fst listed) (enumerate_devices (world e)) /\
    Forall (fun p => iProduct (fst p) = 0 -> snd p = "Unknown") listed /\
    trace e' = trace e ++ EvFindAll :: reads /\
    Forall (product_read (enumerate_devices (world e))) reads /\
    config_file e' = config_file e.
Proof.
  unfold scan_devices. unfold bind at 1 2 3. cbn [print fst snd].
  unfold usb_core_find_all. cbn [world log]. unfold bind.
  match goal with
  | |- context [scan_loop ?l ?c ?e0] =>
      destruct (scan_loop_listing l c e0)
        as (listed & reads & e' & -> & Hout & Hsub & Hunk & Htr & Hrd & Hf)
  end.
  unfold log in Hout, Htr, Hf.
  cbn [stdout trace config_file world] in Hout, Htr, Hf.
  exists listed, reads.
  assert (Hend : exists e'',
    (if 0 + Z.of_nat (List.length listed) =? 0
     then print no_device_notice else ret tt) e' = (inr tt, e'') /\
    stdout e'' =
      stdout e' ++ match listed with [] => [no_device_notice] | _ :: _ => [] end /\
    trace e'' = trace e' /\ config_file e'' = config_file e').
  { destruct listed as [|p listed].
    - eexists. split; [reflexivity|]. repeat split.
    - destruct (Z.eqb_spec (0 + Z.of_nat (List.length (p :: listed))) 0) as [E|_].
      { cbn [List.length] in E. lia. }
      eexists. split; [reflexivity|]. rewrite app_nil_r. repeat split. }
  destruct Hend as (e'' & Heq & Hout' & Htr' & Hf').
  exists e''. split; [exact Heq|].
  split.
  { rewrite Hout', Hout. unfold listing_head. rewrite <- !app_assoc.
    reflexivity. }
  split; [exact Hsub|]. split; [exact Hunk|].
  split; [rewrite Htr', Htr, <- app_assoc; reflexivity|].
  split; [exact Hrd|]. rewrite Hf'. exact Hf.
Qed.

(** X19: the listing is the two head lines, then one row per listed device,
    in the order of the enumeration, then the no-device notice exactly
    when no row was printed; a listed device without a product string
    index has the name ["Unknown"]. *)
Theorem scan_devices_listing_shape (e : Env W) :
  exists listed : list (Device * string),
    stdout (snd (scan_devices e)) =
      stdout e ++ listing_head
        ++ List.map (fun p => row_of (fst p) (snd p)) listed
        ++ match listed with [] => [no_device_notice] | _ :: _ => [] end /\
    sublist (List.map fst listed) (enumerate_devices (world e)) /\
    Forall (fun p => iProduct (fst p) = 0 -> snd p = "Unknown") listed.
Proof.
  destruct (scan_devices_listing e)
    as (listed & reads & e' & -> & Hout & Hsub & Hunk & _).
  exists listed. repeat split; assumption.
Qed.

(** X20: [scan_devices] only reads: after the enumeration its transfers are
    reads of the product strings of enumerated devices that have one; it
    never searches for a pair of ids, claims a device or writes to one,
    and it leaves the configuration file alone. *)
Theorem scan_devices_only_reads (e : Env W) :
  exists reads,
    trace (snd (scan_devices e)) = trace e ++ EvFindAll :: reads /\
    Forall (product_read (enumerate_devices (world e))) reads /\
    config_file (snd (scan_devices e)) = config_file e.
Proof.
  destruct (scan_devices_listing e)
    as (listed & reads & e' & -> & _ & _ & _ & Htr & Hrd & Hf).
  exists reads. repeat split; assumption.
Qed.

End ScanMore.

(** ** A file that is not JSON *)

Section Corrupt.
Context {W : Type} {host : Host W}.

(** X18: a file on which [json.load] raises [json.JSONDecodeError] counts
    as no file, after a warning: with both ids on the command line the run
    works with endpoint 2 and the default header and footer, and without
    them it stops at the usage, the file left as it is. *)
Theorem corrupt_config_starts_fresh args (e : Env W) :
  config_file e = Unparsable ->
  (forall vid pid,
     arg_vid args = Some vid -> arg_pid args = Some pid ->
     vid <> "" -> pid <> "" ->
     manual_set_color args e =
       (print corrupt_warning;;
        print (Connecting (PStr vid) (PStr pid));;
        send_and_save (PStr vid) (PStr pid) (PInt 2) (arg_color args)
          (PStr DEFAULT_PACKET_HEADER) (PStr DEFAULT_PACKET_FOOTER)) e) /\
  (arg_vid args = None \/ arg_pid args = None ->
   manual_set_color args e =
     (inr tt,
      mkEnv (world e) (trace e) (stdout e ++ corrupt_warning :: usage_lines)
        Unparsable)).
Proof.
  intros Hf.
  assert (Hload : load_config e = (inr (CDict ∅), snd (print corrupt_warning e))).
  { unfold load_config. rewrite Hf. reflexivity. }
  split.
  - intros vid pid Hv Hp Hvn Hpn.
    rewrite (manual_set_color_resolved args e ∅ (f_equal fst Hload)).
    rewrite Hload. cbv zeta. unfold chosen. rewrite Hv, Hp.
    destruct vid as [|a vid]; [contradiction Hvn; reflexivity|].
    destruct pid as [|b pid]; [contradiction Hpn; reflexivity|].
    reflexivity.
  - intros Hnone.
    rewrite (manual_set_color_resolved args e ∅ (f_equal fst Hload)).
    rewrite Hload. cbv zeta. unfold chosen.
    assert (Hcond :
      negb (truthy (if truthy (arg_value (arg_vid args))
                    then arg_value (arg_vid args)
                    else from_option id PNone ((∅ : gmap string pyval) !! "vid")))
      || negb (truthy (if truthy (arg_value (arg_pid args))
                       then arg_value (arg_pid args)
                       else from_option id PNone ((∅ : gmap string pyval) !! "pid")))
      = true).
    { destruct Hnone as [-> | ->]; cbn; [reflexivity|apply orb_true_r]. }
    rewrite Hcond. unfold print. cbn [snd world trace stdout config_file].
    rewrite Hf, <- app_assoc. reflexivity.
Qed.

End Corrupt.

(** ** The extras on the scripted bus *)

Lemma RGBDevice_init_holds_claimed_device_witness :
  to_id (PStr "0416") = inr (self_vid lianli_object) /\
  to_id (PStr "0x7399") = inr (self_pid lianli_object) /\
  self_endpoint lianli_object = PInt 2 /\
  exists d,
    self_dev lianli_object = Some d /\
    In d (enumerate_devices (world (sim_env steady_bus))) /\
    matches (self_vid lianli_object) (self_pid lianli_object) d = true /\
    usb_set_configuration d (world (sim_env steady_bus))
      = (inr tt, world (mkEnv steady_bus
                          [EvFind (PInt 1046) (PInt 29593);
                           EvSetConfiguration lianli] [] NoFile)) /\
    trace (mkEnv steady_bus
             [EvFind (PInt 1046) (PInt 29593); EvSetConfiguration lianli]
             [] NoFile) =
      trace (sim_env steady_bus)
        ++ [EvFind (self_vid lianli_object) (self_pid lianli_object);
            EvSetConfiguration d] /\
    stdout (mkEnv steady_bus
              [EvFind (PInt 1046) (PInt 29593); EvSetConfiguration lianli]
              [] NoFile) = stdout (sim_env steady_bus) /\
    config_file (mkEnv steady_bus
                   [EvFind (PInt 1046) (PInt 29593); EvSetConfiguration lianli]
                   [] NoFile) = config_file (sim_env steady_bus).
Proof.
  apply (RGBDevice_init_holds_claimed_device (PStr "0416") (PStr "0x7399")
           (PInt 2) (sim_env steady_bus)).
  reflexivity.
Defined.

Lemma bad_id_string_before_io_witness :
  send_and_save (PStr "zz") (PStr "7399") (PInt 2) "ff0000"
    (PStr DEFAULT_PACKET_HEADER) (PStr DEFAULT_PACKET_FOOTER)
    (sim_env steady_bus)
  = (inr tt,
     mkEnv steady_bus [] 
       [ErrorLine (ValueError "invalid literal for int() with base 16")]
       NoFile).
Proof.
  apply (bad_id_string_before_io "zz" (PStr "7399") (PInt 2) "ff0000"
           (PStr DEFAULT_PACKET_HEADER) (PStr DEFAULT_PACKET_FOOTER)
           (sim_env steady_bus)).
  reflexivity.
Defined.

Lemma device_not_found_reported_witness :
  send_and_save (PStr "0416") (PStr "7399") (PInt 2) "ff0000"
    (PStr DEFAULT_PACKET_HEADER) (PStr DEFAULT_PACKET_FOOTER)
    (sim_env keyboard_only)
  = (inr tt,
     mkEnv keyboard_only [EvFind (PInt 1046) (PInt 29593)]
       [ErrorLine (DeviceNotFound 1046 29593)] NoFile).
Proof.
  apply (device_not_found_reported (PStr "0416") (PStr "7399") 1046 29593
           (PInt 2) "ff0000" (PStr DEFAULT_PACKET_HEADER)
           (PStr DEFAULT_PACKET_FOOTER) (sim_env keyboard_only));
    try reflexivity.
  intros d [<-|[]] [H _]. discriminate H.
Defined.

Lemma claim_failure_reported_witness :
  send_and_save (PStr "0416") (PStr "7399") (PInt 2) "ff0000"
    (PStr DEFAULT_PACKET_HEADER) (PStr DEFAULT_PACKET_FOOTER)
    (sim_env locked_bus)
  = (inr tt,
     mkEnv locked_bus
       [EvFind (PInt 1046) (PInt 29593); EvSetConfiguration lianli]
       [ErrorLine (USBError "Access denied (insufficient permissions)")]
       NoFile).
Proof.
  apply (claim_failure_reported (PStr "0416") (PStr "7399") (PInt 1046)
           (PInt 29593) (PInt 2) "ff0000" (PStr DEFAULT_PACKET_HEADER)
           (PStr DEFAULT_PACKET_FOOTER) (sim_env locked_bus) lianli);
    reflexivity.
Defined.

Lemma invalid_color_claims_but_never_writes_witness :
  send_and_save (PStr "0416") (PStr "7399") (PInt 2) "GG0000"
    (PStr DEFAULT_PACKET_HEADER) (PStr DEFAULT_PACKET_FOOTER)
    (sim_env steady_bus)
  = (inr tt,
     snd (print (ErrorLine InvalidPayload)
            (mkEnv steady_bus
               [EvFind (PInt 1046) (PInt 29593); EvSetConfiguration lianli]
               [] NoFile))) /\
  List.filter is_write
    (trace (mkEnv steady_bus
              [EvFind (PInt 1046) (PInt 29593); EvSetConfiguration lianli]
              [] NoFile))
  = List.filter is_write (trace (sim_env steady_bus)) /\
  config_file (mkEnv steady_bus
                 [EvFind (PInt 1046) (PInt 29593); EvSetConfiguration lianli]
                 [] NoFile)
  = config_file (sim_env steady_bus).
Proof.
  apply (invalid_color_claims_but_never_writes (PStr "0416") (PStr "7399")
           (PInt 2) "GG0000" DEFAULT_PACKET_HEADER DEFAULT_PACKET_FOOTER
           (sim_env steady_bus) _ lianli_object);
    reflexivity.
Defined.

Lemma first_write_outcomes_witness :
  send_color_packet "ff0000" (PStr "0185") (PStr "18")
    (lianli_object, sim_env steady_bus)
  = (inr true,
     (lianli_object,
      after_write lianli (PInt 2) [1; 133; 255; 0; 0; 24] (sim_env steady_bus))).
Proof.
  apply (proj1 (first_write_outcomes "0185" "ff0000" "18"
                  [1; 133; 255; 0; 0; 24] lianli_object (sim_env steady_bus)
                  lianli eq_refl eq_refl)).
  reflexivity.
Defined.

Lemma lost_device_stays_lost_witness :
  exists e',
    send_color_packet "ff0000" (PStr "0185") (PStr "18")
      (lianli_object, sim_env unplugging_bus)
      = (inr false, (set_dev None lianli_object, e')) /\
    trace e' =
      trace (sim_env unplugging_bus)
        ++ [EvWrite lianli (PInt 2) [1; 133; 255; 0; 0; 24];
            EvFind (PInt 1046) (PInt 29593)] /\
    forall color2 data2 (e2 : Env SimWorld),
      buildPayload "0185" color2 "18" = inr data2 ->
      send_color_packet color2 (PStr "0185") (PStr "18")
        (set_dev None lianli_object, e2)
      = (inr false, (set_dev None lianli_object, e2)).
Proof.
  apply (lost_device_stays_lost "0185" "ff0000" "18" [1; 133; 255; 0; 0; 24]
           lianli_object (sim_env unplugging_bus) lianli "No such device");
    reflexivity.
Defined.

Lemma missing_ids_touch_nothing_witness :
  exists e',
    manual_set_color (mkArgs "ff0000" (Some "0416") None) (sim_env steady_bus)
      = (inr tt, e') /\
    world e' = steady_bus /\ trace e' = [] /\ config_file e' = NoFile /\
    stdout e' = usage_lines.
Proof.
  apply (missing_ids_touch_nothing (mkArgs "ff0000" (Some "0416") None)
           (sim_env steady_bus) ∅); [reflexivity|].
  right. reflexivity.
Defined.

Lemma manual_set_color_never_raises_witness :
  fst (manual_set_color (mkArgs "ff0000" (Some "0416") (Some "7399"))
         (mkEnv unplugging_bus [] [] Unparsable)) = inr tt /\
  manual_set_color (mkArgs "ff0000" (Some "0416") (Some "7399"))
    (mkEnv steady_bus [] [] (Unreadable (OtherException "PermissionError: Permission denied")))
  = (inl (OtherException "PermissionError: Permission denied"),
     mkEnv steady_bus [] [] (Unreadable (OtherException "PermissionError: Permission denied"))).
Proof.
  split.
  - apply (proj1 (manual_set_color_never_raises
                    (mkArgs "ff0000" (Some "0416") (Some "7399"))
                    (mkEnv unplugging_bus [] [] Unparsable))).
    right. left. reflexivity.
  - apply (proj2 (manual_set_color_never_raises
                    (mkArgs "ff0000" (Some "0416") (Some "7399"))
                    (mkEnv steady_bus [] []
                       (Unreadable (OtherException "PermissionError: Permission denied"))))).
    reflexivity.
Defined.

Lemma non_object_config_raises_witness :
  manual_set_color (mkArgs "ff0000" (Some "0416") (Some "7399"))
    (mkEnv steady_bus [] [] (Parsed COther))
  = (inl (AttributeError "object has no attribute 'get'"),
     mkEnv steady_bus [] [] (Parsed COther)).
Proof. apply non_object_config_raises. reflexivity. Defined.

Lemma saved_configuration_replays_witness :
  manual_set_color (mkArgs "00FF00" None None)
    (snd (send_and_save (PStr "0416") (PStr "7399") (PInt 2) "FF0000"
            (PStr DEFAULT_PACKET_HEADER) (PStr DEFAULT_PACKET_FOOTER)
            (sim_env steady_bus)))
  = (print (Connecting (PStr "0416") (PStr "7399"));;
     send_and_save (PStr "0416") (PStr "7399") (PInt 2) "00FF00"
       (PStr DEFAULT_PACKET_HEADER) (PStr DEFAULT_PACKET_FOOTER))
      (snd (send_and_save (PStr "0416") (PStr "7399") (PInt 2) "FF0000"
              (PStr DEFAULT_PACKET_HEADER) (PStr DEFAULT_PACKET_FOOTER)
              (sim_env steady_bus))).
Proof.
  apply saved_configuration_replays; [reflexivity|reflexivity|].
  vm_compute. reflexivity.
Defined.

Lemma corrupt_config_starts_fresh_witness :
  manual_set_color (mkArgs "ff0000" None None)
    (mkEnv steady_bus [] [] Unparsable)
  = (inr tt,
     mkEnv steady_bus [] (corrupt_warning :: usage_lines) Unparsable).
Proof.
  apply (proj2 (corrupt_config_starts_fresh (mkArgs "ff0000" None None)
                  (mkEnv steady_bus [] [] Unparsable) eq_refl)).
  left. reflexivity.
Defined.

(** ** A run that succeeds *)

Section Success.
Context {W : Type} {host : Host W}.

(** X21: when the device is found and claimed, the colour decodes and the
    write succeeds, [manual_set_color] makes exactly these three transfers,
    the write carrying the decoded payload to the configured endpoint of
    the device found; it prints the success line with the colour as typed
    and the saved line, and the file then parses to a dictionary that
    holds the ids as given, the endpoint, the header and the footer under
    the keys [vid], [pid], [endpoint], [packet_header] and
    [packet_footer], and no other key. *)
Theorem successful_run vid pid v p endpoint color header footer data
    (e : Env W) d w1 w2 :
  to_id vid = inr v -> to_id pid = inr p ->
  List.find (matches v p) (enumerate_devices (world e)) = Some d ->
  usb_set_configuration d (world e) = (inr tt, w1) ->
  buildPayload header color footer = inr data ->
  usb_write d endpoint data w1 = (inr tt, w2) ->
  exists saved,
    send_and_save vid pid endpoint color (PStr header) (PStr footer) e
    = (inr tt,
       mkEnv w2
         (trace e ++ [EvFind v p; EvSetConfiguration d; EvWrite d endpoint data])
         (stdout e ++ [Text ("Successfully set color to #" +:+ color);
                       Text ("Configuration saved to " +:+ CONFIG_FILE)])
         (Parsed (CDict saved))) /\
    saved !! "vid" = Some vid /\ saved !! "pid" = Some pid /\
    saved !! "endpoint" = Some endpoint /\
    saved !! "packet_header" = Some (PStr header) /\
    saved !! "packet_footer" = Some (PStr footer) /\
    (forall key, saved !! key <> None ->
       In key ["vid"; "pid"; "endpoint"; "packet_header"; "packet_footer"]).
Proof.
  intros Hv Hp Hfind Hsc Hdata Hw.
  exists (config_data vid pid endpoint (PStr header) (PStr footer)).
  split;
    [|destruct (config_data_lookup vid pid endpoint (PStr header) (PStr footer))
        as (H1 & H2 & H3 & H4 & H5);
      repeat (split; [assumption|]); apply config_data_keys].
  unfold send_and_save, try_except, bind, locate_and_send, bind.
  rewrite RGBDevice_init_cases, Hv, Hp, connect_cases.
  cbn [self_vid self_pid world]. cbv zeta. rewrite Hfind, Hsc. cbn [fst snd].
  unfold call.
  rewrite (send_color_packet_cases header color footer data
             (set_dev (Some d) (mkRGBDevice v p endpoint None)) _ d Hdata eq_refl).
  cbn [self_endpoint set_dev]. cbv zeta.
  unfold after_write, set_world, log. cbn [world trace stdout config_file].
  rewrite Hw. cbn [fst snd].
  unfold save_config, bind, print, set_config_file.
  cbn [world trace stdout config_file].
  rewrite <- !app_assoc. reflexivity.
Qed.

End Success.

Lemma successful_run_witness :
  exists saved,
    send_and_save (PStr "0416") (PStr "7399") (PInt 2) "#FF0000"
      (PStr "0185") (PStr "18") (sim_env steady_bus)
    = (inr tt,
       mkEnv steady_bus
         [EvFind (PInt 1046) (PInt 29593); EvSetConfiguration lianli;
          EvWrite lianli (PInt 2) [1; 133; 255; 0; 0; 24]]
         [Text "Successfully set color to ##FF0000";
          Text "Configuration saved to config.json"]
         (Parsed (CDict saved))) /\
    saved !! "vid" = Some (PStr "0416") /\
    saved !! "pid" = Some (PStr "7399") /\
    saved !! "endpoint" = Some (PInt 2) /\
    saved !! "packet_header" = Some (PStr "0185") /\
    saved !! "packet_footer" = Some (PStr "18").
Proof.
  destruct (successful_run (host := sim_host)
              (PStr "0416") (PStr "7399") (PInt 1046) (PInt 29593)
              (PInt 2) "#FF0000" "0185" "18" [1; 133; 255; 0; 0; 24]
              (sim_env steady_bus) lianli steady_bus steady_bus
              eq_refl eq_refl eq_refl eq_refl eq_refl eq_refl)
    as (saved & Hrun & Hvid & Hpid & Hep & Hhead & Hfoot & _).
  exists saved. repeat split; assumption.
Defined.
